(** * bskyhaialert: a shallow embedding of [main.go]

    The program is a daily bot: at startup it builds an authenticated
    xrpc client ([newClient]), reads the profile counters once
    ([fetchData]) and then, every day at local midnight, fetches the
    counters again, renders a message from a fixed template and publishes
    it ([post]).

    Go values are embedded as follows: [int64] is [Z] with the
    wrap-around of the subtraction written out, [string] and [[]byte] are
    Rocq strings (sequences of bytes), a pointer to [int64] is an
    [option Z], a Go [(value, error)] pair is a [result], and the effects
    (file system, remote procedure calls, log, panics, [os.Exit]) are
    threaded through a small state monad. *)

From Stdlib Require Import ZArith String Ascii DecimalString List Lia.
From Stdlib Require DecimalPos DecimalZ.
From stdpp Require Import base option gmap strings.
Import ListNotations.

Local Open Scope string_scope.

(** ** Go runtime values *)

(** [error]: either a root error with its message, or an error wrapped by
    [xerrors.Errorf("<msg>: %w", err)]. *)
Inductive error : Type :=
| errors_New (msg : string)
| xerrors_Errorf (msg : string) (cause : error).

(** A Go [(T, error)] return. *)
Inductive result (A : Type) : Type :=
| Ok (a : A)
| Err (e : error).
Arguments Ok {A} a.
Arguments Err {A} e.

Definition is_Err {A} (r : result A) : bool :=
  match r with Ok _ => false | Err _ => true end.

(** *** int64 *)

Definition int64_min : Z := (- 2 ^ 63)%Z.
Definition int64_max : Z := (2 ^ 63 - 1)%Z.

Definition is_int64 (z : Z) : Prop := (int64_min <= z <= int64_max)%Z.

(** Two's complement wrap-around of a mathematical integer into int64. *)
Definition wrap64 (z : Z) : Z := ((z + 2 ^ 63) mod 2 ^ 64 - 2 ^ 63)%Z.

(** Go's [a - b] on int64. *)
Definition sub64 (a b : Z) : Z := wrap64 (a - b).

(** *** fmt *)

(** [fmt.Sprintf("%d", z)] (and the template's default printing of an
    int64): the signed decimal rendering, a leading [-] for negatives. *)
Definition fmt_d (z : Z) : string := NilZero.string_of_int (Z.to_int z).

(** Decimal digits of a natural number, left-padded with zeros to [width]
    (Go's [appendInt] on a non-negative value). *)
Fixpoint zeros (n : nat) : string :=
  match n with
  | O => ""
  | S n' => String "0" (zeros n')
  end.

Definition pad_nat (width : nat) (z : Z) : string :=
  let digits := fmt_d z in
  zeros (width - String.length digits) +:+ digits.

(** [appendInt] of package time: sign first, then the padded magnitude. *)
Definition appendInt (width : nat) (z : Z) : string :=
  if (z <? 0)%Z then "-" +:+ pad_nat width (- z) else pad_nat width z.

(** ** Package time, for the two layouts the program uses *)

Module time.

(** A [time.Time]: an instant (milliseconds since the Unix epoch) and the
    location it is presented in, here a fixed offset in seconds east of
    UTC. *)
Record Time : Type := mkTime {
  unixMilli : Z;
  zoneOffset : Z
}.

(** [t.UTC()]: the same instant, presented in UTC. *)
Definition UTC (t : Time) : Time :=
  {| unixMilli := unixMilli t; zoneOffset := 0 |}.

(** [t.AddDate(0, 0, days)] in a fixed-offset location. The locations
    of this model are fixed offsets, so moving the wall-clock date by a
    day and moving the instant by 24 hours are the same; in a zone with
    daylight-saving transitions the two differ around a transition. *)
Definition AddDate_days (t : Time) (days : Z) : Time :=
  {| unixMilli := (unixMilli t + days * 86400000)%Z;
     zoneOffset := zoneOffset t |}.

(** Wall clock reading in the time's own location, in milliseconds. *)
Definition wallMilli (t : Time) : Z :=
  (unixMilli t + 1000 * zoneOffset t)%Z.

(** Proleptic Gregorian date of a day number counted from 1970-01-01. *)
Definition civil (days : Z) : Z * Z * Z :=
  let z := (days + 719468)%Z in
  let era := (z / 146097)%Z in
  let doe := (z - era * 146097)%Z in
  let yoe := ((doe - doe / 1460 + doe / 36524 - doe / 146096) / 365)%Z in
  let doy := (doe - (365 * yoe + yoe / 4 - yoe / 100))%Z in
  let mp := ((5 * doy + 2) / 153)%Z in
  let d := (doy - (153 * mp + 2) / 5 + 1)%Z in
  let m := (if (mp <? 10)%Z then mp + 3 else mp - 9)%Z in
  let y := (yoe + era * 400 + (if (m <=? 2)%Z then 1 else 0))%Z in
  (y, m, d).

Definition Year (t : Time) : Z := (civil (wallMilli t / 86400000)).1.1.
Definition Month (t : Time) : Z := (civil (wallMilli t / 86400000)).1.2.
Definition Day (t : Time) : Z := (civil (wallMilli t / 86400000)).2.
Definition Hour (t : Time) : Z := ((wallMilli t mod 86400000) / 3600000)%Z.
Definition Minute (t : Time) : Z := ((wallMilli t mod 3600000) / 60000)%Z.
Definition Second (t : Time) : Z := ((wallMilli t mod 60000) / 1000)%Z.
Definition Millisecond (t : Time) : Z := (wallMilli t mod 1000)%Z.

(** The pieces a layout string is cut into by [Format]. Only a zone
    chunk prints the zone; every other character is copied as it is. *)
Inductive chunk : Type :=
| stdLongYear        (* 2006 *)
| stdZeroMonth       (* 01 *)
| stdZeroDay         (* 02 *)
| stdHour            (* 15 *)
| stdZeroMinute      (* 04 *)
| stdZeroSecond      (* 05 *)
| stdFracSecond0 (digits : nat)   (* .000 *)
| literal (s : string).

Definition appendChunk (t : Time) (c : chunk) : string :=
  match c with
  | stdLongYear => appendInt 4 (Year t)
  | stdZeroMonth => appendInt 2 (Month t)
  | stdZeroDay => appendInt 2 (Day t)
  | stdHour => appendInt 2 (Hour t)
  | stdZeroMinute => appendInt 2 (Minute t)
  | stdZeroSecond => appendInt 2 (Second t)
  | stdFracSecond0 n =>
      "." +:+ pad_nat n (Millisecond t * 10 ^ Z.of_nat n / 1000)
  | literal s => s
  end.

(** [t.Format(layout)], for a layout already cut into chunks. *)
Definition Format (t : Time) (layout : list chunk) : string :=
  fold_right (fun c acc => appendChunk t c +:+ acc) "" layout.

End time.

Arguments time.Format : simpl never.

(** The layout ["2006-01-02"] of the [Yesterday] field. *)
Definition layout_date : list time.chunk :=
  [time.stdLongYear; time.literal "-"; time.stdZeroMonth; time.literal "-";
   time.stdZeroDay].

(** The constant [ISO8601 = "2006-01-02T15:04:05.000Z"]. The trailing [Z]
    is not followed by a zone pattern ([Z07:00], [Z0700], ...), so
    [Format] copies it as a literal character. *)
Definition ISO8601 : list time.chunk :=
  [time.stdLongYear; time.literal "-"; time.stdZeroMonth; time.literal "-";
   time.stdZeroDay; time.literal "T"; time.stdHour; time.literal ":";
   time.stdZeroMinute; time.literal ":"; time.stdZeroSecond;
   time.stdFracSecond0 3; time.literal "Z"].

(** ** The program's types *)

Record Config : Type := mkConfig {
  Host : string;
  Handle : string;
  Password : string
}.

Record Data : Type := mkData {
  Posts : Z;
  Follows : Z;
  Followers : Z
}.

Record Param : Type := mkParam {
  Yesterday : string;
  PostsCount : Z;
  PostsCountDiff : Z;
  FollowsCount : Z;
  FollowsCountDiff : Z;
  FollowersCount : Z;
  FollowersCountDiff : Z
}.

(** ** formatDiff and the message template *)

Definition formatDiff (diff : Z) : string :=
  if (diff =? 0)%Z then "±0"
  else if (diff >? 0)%Z then "+" +:+ fmt_d diff
  else fmt_d diff.

(** A parsed template, as [Execute] uses it: from the parameters to the
    text written into the buffer, or an error. *)
Definition Template : Type := Param -> result string.

(** [POST_FORMAT] executed with [formatDiff] in its function map. Neither
    the field accesses nor [formatDiff] can fail and the buffer accepts
    every write, so the execution of this template returns no error. *)
Definition POST_FORMAT : Template := fun p =>
  Ok ("【" +:+ Yesterday p +:+ "の統計】
ポスト数: " +:+ fmt_d (PostsCount p) +:+ "(" +:+ formatDiff (PostsCountDiff p) +:+ ")
フォロー数: " +:+ fmt_d (FollowsCount p) +:+ "(" +:+ formatDiff (FollowsCountDiff p) +:+ ")
フォロワー数: " +:+ fmt_d (FollowersCount p) +:+ "(" +:+ formatDiff (FollowersCountDiff p) +:+ "))").

(** ** The client library's types *)

Module xrpc.

(** [xrpc.AuthInfo], with its JSON keys [accessJwt], [refreshJwt],
    [handle] and [did]. *)
Record AuthInfo : Type := mkAuthInfo {
  AccessJwt : string;
  RefreshJwt : string;
  Handle : string;
  Did : string
}.

(** [xrpc.Client]; [Auth] is a pointer in Go, never nil in this program. *)
Record Client : Type := mkClient {
  Host : string;
  Auth : AuthInfo
}.

Definition set_Auth (c : Client) (a : AuthInfo) : Client :=
  {| Host := Host c; Auth := a |}.

End xrpc.

Module atproto.

(** The fields of the create-session and refresh-session outputs that
    the program reads. *)
Record Session : Type := mkSession {
  Did : string;
  AccessJwt : string;
  RefreshJwt : string
}.

Record FeedPost : Type := mkFeedPost {
  Text : string;
  CreatedAt : string
}.

Record RepoCreateRecord_Input : Type := mkInput {
  Collection : string;
  Repo : string;
  Record_ : FeedPost
}.

Record RepoCreateRecord_Output : Type := mkOutput {
  Cid : string;
  Uri : string
}.

End atproto.

Module bsky.

(** The three counters of [ActorDefs_ProfileViewDetailed]; each is a
    [*int64], [None] standing for the nil pointer of an absent field. *)
Record Profile : Type := mkProfile {
  PostsCount : option Z;
  FollowsCount : option Z;
  FollowersCount : option Z
}.

End bsky.

(** ** encoding/json on [xrpc.AuthInfo] *)

(** The codec is a library of its own; the program relies on two of its
    operations. [json_Unmarshal b a] decodes [b] into the existing value
    [a] and returns the updated value. Of its behaviour the development
    uses one documented fact: empty input is a syntax error. *)
Class JSON : Type := {
  json_Marshal : xrpc.AuthInfo -> result string;
  json_Unmarshal : string -> xrpc.AuthInfo -> result xrpc.AuthInfo;
  json_Unmarshal_empty :
    forall a, json_Unmarshal "" a = Err (errors_New "unexpected end of JSON input")
}.

(** ** The world outside the program *)

(** Remote procedure calls, in the order they were issued. *)
Inductive Call : Type :=
| ServerRefreshSession_call (c : xrpc.Client)
| ServerCreateSession_call (identifier password : string)
| ActorGetProfile_call (actor : string)
| RepoCreateRecord_call (input : atproto.RepoCreateRecord_Input).

(** Lines written by package log. *)
Inductive LogLine : Type :=
| log_Printf (msg : string) (err : error)
| log_Println (msg : string)
| log_Fatalf (msg : string) (err : error).

(** What the remote services answer when asked. *)
Record Remote : Type := mkRemote {
  ServerRefreshSession_rpc : xrpc.Client -> result atproto.Session;
  ServerCreateSession_rpc : xrpc.Client -> string -> string -> result atproto.Session;
  ActorGetProfile_rpc : xrpc.Client -> string -> result bsky.Profile;
  RepoCreateRecord_rpc :
    xrpc.Client -> atproto.RepoCreateRecord_Input -> result atproto.RepoCreateRecord_Output
}.

(** The environment of the startup: what loading [config.json] gives, the
    hash function (hex of the SHA-256 digest), the faults the operating
    system may answer file operations with, and the remote services. *)
Record Env : Type := mkEnv {
  loadConfig : result Config;
  sha256_hex : string -> string;
  os_Create_fault : string -> option error;
  io_ReadAll_fault : string -> option error;
  file_Write_fault : string -> option error;
  remote : Remote
}.

(** The environment of one tick of the scheduler: the remote services of
    that day and the two readings of [time.Now()]. *)
Record TickEnv : Type := mkTickEnv {
  tick_remote : Remote;
  now_param : time.Time;
  now_post : time.Time
}.

(** The state threaded through the program: files by name, the offset of
    the one open file, the calls issued, the log, and [main]'s variable
    [data], which the scheduled closure captures by reference. *)
Record State : Type := mkState {
  fs : gmap string string;
  offset : nat;
  calls : list Call;
  log : list LogLine;
  data : Data
}.

Definition set_fs (f : gmap string string) (s : State) : State :=
  {| fs := f; offset := offset s; calls := calls s; log := log s; data := data s |}.
Definition set_offset (n : nat) (s : State) : State :=
  {| fs := fs s; offset := n; calls := calls s; log := log s; data := data s |}.
Definition add_call (c : Call) (s : State) : State :=
  {| fs := fs s; offset := offset s; calls := calls s ++ [c]; log := log s; data := data s |}.
Definition add_log (l : LogLine) (s : State) : State :=
  {| fs := fs s; offset := offset s; calls := calls s; log := log s ++ [l]; data := data s |}.
Definition set_data (d : Data) (s : State) : State :=
  {| fs := fs s; offset := offset s; calls := calls s; log := log s; data := d |}.

(** ** The monad of the program *)

(** How a piece of code ends: it returns, it panics (a run-time error
    nobody recovers from), or it exits the process ([log.Fatalf]). *)
Inductive outcome (A : Type) : Type :=
| Return (a : A)
| Panic (msg : string)
| Exit (code : Z).
Arguments Return {A} a.
Arguments Panic {A} msg.
Arguments Exit {A} code.

Definition M (A : Type) : Type := State -> outcome A * State.

Definition ret {A} (a : A) : M A := fun s => (Return a, s).

Definition bind {A B} (m : M A) (k : A -> M B) : M B := fun s =>
  match m s with
  | (Return a, s') => k a s'
  | (Panic msg, s') => (Panic msg, s')
  | (Exit code, s') => (Exit code, s')
  end.

Notation "'let*' x := m 'in' k" := (bind m (fun x => k))
  (at level 10, x name, m at level 100, k at level 200, only parsing).

Definition get : M State := fun s => (Return s, s).
Definition modify (f : State -> State) : M unit := fun s => (Return tt, f s).
Definition panic {A} (msg : string) : M A := fun s => (Panic msg, s).

Definition Printf (msg : string) (err : error) : M unit := modify (add_log (log_Printf msg err)).
Definition Println (msg : string) : M unit := modify (add_log (log_Println msg)).
Definition Fatalf {A} (msg : string) (err : error) : M A :=
  fun s => (Exit 1, add_log (log_Fatalf msg err) s).

(** Dereference of a [*int64]. *)
Definition deref (p : option Z) : M Z :=
  match p with
  | Some v => ret v
  | None => panic "runtime error: invalid memory address or nil pointer dereference"
  end.

(** ** Package os and io on the modelled file system *)

(** An open file; the program has at most one. *)
Record File : Type := mkFile { Name : string }.

(** [os.Stat(filename)] answers without error when the file is there. *)
Definition os_Stat (filename : string) : M (result unit) :=
  let* s := get in
  ret (match fs s !! filename with
       | Some _ => Ok tt
       | None => Err (errors_New "no such file or directory")
       end).

(** [os.Create]: opens for reading and writing, creating the file if it is
    missing and truncating it if it is there; the offset starts at 0. *)
Definition os_Create (env : Env) (name : string) : M (result File) :=
  match os_Create_fault env name with
  | Some e => ret (Err e)
  | None =>
      let* _ := modify (fun s => set_offset 0 (set_fs (<[name := ""]> (fs s)) s)) in
      ret (Ok (mkFile name))
  end.

Definition contents (s : State) (file : File) : string :=
  default "" (fs s !! Name file).

Definition drop_string (n : nat) (s : string) : string :=
  String.substring n (String.length s - n) s.
Definition take_string (n : nat) (s : string) : string :=
  String.substring 0 n s.

(** [io.ReadAll(file)]: everything from the offset to the end. *)
Definition io_ReadAll (env : Env) (file : File) : M (result string) :=
  match io_ReadAll_fault env (Name file) with
  | Some e => ret (Err e)
  | None =>
      let* s := get in
      let c := contents s file in
      let* _ := modify (set_offset (Nat.max (offset s) (String.length c))) in
      ret (Ok (drop_string (offset s) c))
  end.

(** [file.Write(b)]: overwrites from the offset on and advances it. *)
Definition file_Write (env : Env) (file : File) (b : string) : M (result nat) :=
  match file_Write_fault env (Name file) with
  | Some e => ret (Err e)
  | None =>
      let* s := get in
      let c := contents s file in
      let c' := take_string (offset s) c +:+ b
                +:+ drop_string (offset s + String.length b) c in
      let* _ := modify (fun s => set_offset (offset s + String.length b)
                         (set_fs (<[Name file := c']> (fs s)) s)) in
      ret (Ok (String.length b))
  end.

(** ** Remote procedures, as the client library exposes them *)

Definition atproto_ServerRefreshSession (r : Remote) (client : xrpc.Client)
  : M (result atproto.Session) :=
  let* _ := modify (add_call (ServerRefreshSession_call client)) in
  ret (ServerRefreshSession_rpc r client).

Definition atproto_ServerCreateSession (r : Remote) (client : xrpc.Client)
    (identifier password : string) : M (result atproto.Session) :=
  let* _ := modify (add_call (ServerCreateSession_call identifier password)) in
  ret (ServerCreateSession_rpc r client identifier password).

Definition bsky_ActorGetProfile (r : Remote) (client : xrpc.Client) (actor : string)
  : M (result bsky.Profile) :=
  let* _ := modify (add_call (ActorGetProfile_call actor)) in
  ret (ActorGetProfile_rpc r client actor).

Definition atproto_RepoCreateRecord (r : Remote) (client : xrpc.Client)
    (input : atproto.RepoCreateRecord_Input)
  : M (result atproto.RepoCreateRecord_Output) :=
  let* _ := modify (add_call (RepoCreateRecord_call input)) in
  ret (RepoCreateRecord_rpc r client input).

(** ** The program *)

Section Program.

Context `{codec : JSON}.

Definition existsFile (filename : string) : M bool :=
  let* r := os_Stat filename in
  ret (negb (is_Err r)).

(** The session's three fields written into [client.Auth]. *)
Definition adopt (client : xrpc.Client) (session : atproto.Session) : xrpc.Client :=
  xrpc.set_Auth client
    {| xrpc.AccessJwt := atproto.AccessJwt session;
       xrpc.RefreshJwt := atproto.RefreshJwt session;
       xrpc.Handle := xrpc.Handle (xrpc.Auth client);
       xrpc.Did := atproto.Did session |}.

(** [createSession] mutates the client it is given; the embedding
    returns the mutated client. *)
Definition createSession (env : Env) (client : xrpc.Client) (cfg : Config)
  : M (result xrpc.Client) :=
  let* r := atproto_ServerCreateSession (remote env) client
              (xrpc.Handle (xrpc.Auth client)) (Password cfg) in
  match r with
  | Err err => ret (Err (xerrors_Errorf "failed to create session" err))
  | Ok session => ret (Ok (adopt client session))
  end.

Definition saveSession (env : Env) (auth : xrpc.AuthInfo) (file : File)
  : M (result unit) :=
  match json_Marshal auth with
  | Err err => ret (Err (xerrors_Errorf "failed to marshal auth" err))
  | Ok b =>
      let* w := file_Write env file b in
      match w with
      | Err err => ret (Err (xerrors_Errorf "failed to write auth file" err))
      | Ok _ => ret (Ok tt)
      end
  end.

Definition authFileName (env : Env) (cfg : Config) : string :=
  "auth_" +:+ sha256_hex env (Host cfg +:+ "_" +:+ Handle cfg) +:+ ".json".

(** [newClient]. The deferred [file.Close()] has no effect on the
    modelled state and is left out. *)
Definition newClient (env : Env) (cfg : Config) : M (result xrpc.Client) :=
  let client :=
    {| xrpc.Host := Host cfg;
       xrpc.Auth := {| xrpc.AccessJwt := ""; xrpc.RefreshJwt := "";
                       xrpc.Handle := Handle cfg; xrpc.Did := "" |} |} in
  let authFileName := authFileName env cfg in
  let* exists_ := existsFile authFileName in
  let* rfile := os_Create env authFileName in
  match rfile with
  | Err err => ret (Err (xerrors_Errorf "failed to open auth file" err))
  | Ok file =>
      if exists_ : bool then
        let* rb := io_ReadAll env file in
        match rb with
        | Err err => ret (Err (xerrors_Errorf "failed to read auth file" err))
        | Ok b =>
            match json_Unmarshal b (xrpc.Auth client) with
            | Err err => ret (Err (xerrors_Errorf "failed to parse auth file" err))
            | Ok auth =>
                let client := xrpc.set_Auth client auth in
                let* rs := atproto_ServerRefreshSession (remote env) client in
                match rs with
                | Err _ =>
                    let* rc := createSession env client cfg in
                    match rc with
                    | Err err => ret (Err (xerrors_Errorf "failed to create session" err))
                    | Ok client =>
                        let* rw := saveSession env (xrpc.Auth client) file in
                        match rw with
                        | Err err => ret (Err (xerrors_Errorf "failed to save session" err))
                        | Ok _ => ret (Ok client)
                        end
                    end
                | Ok session => ret (Ok (adopt client session))
                end
            end
        end
      else
        let* rc := createSession env client cfg in
        match rc with
        | Err err => ret (Err (xerrors_Errorf "failed to create session" err))
        | Ok client =>
            let* rw := saveSession env (xrpc.Auth client) file in
            match rw with
            | Err err => ret (Err (xerrors_Errorf "failed to save session" err))
            | Ok _ => ret (Ok client)
            end
        end
  end.

(** [fetchData]: the three pointers are dereferenced without a nil
    check, in the order of the struct literal. *)
Definition fetchData (r : Remote) (client : xrpc.Client) : M (result Data) :=
  let* rp := bsky_ActorGetProfile r client (xrpc.Handle (xrpc.Auth client)) in
  match rp with
  | Err err => ret (Err (xerrors_Errorf "failed to get profile" err))
  | Ok profile =>
      let* posts := deref (bsky.PostsCount profile) in
      let* follows := deref (bsky.FollowsCount profile) in
      let* followers := deref (bsky.FollowersCount profile) in
      ret (Ok {| Posts := posts; Follows := follows; Followers := followers |})
  end.

(** [post]: [now] is the reading of [time.Now()], a time in the
    process's local zone. *)
Definition post (r : Remote) (now : time.Time) (client : xrpc.Client) (text : string)
  : M (result atproto.RepoCreateRecord_Output) :=
  atproto_RepoCreateRecord r client
    {| atproto.Collection := "app.bsky.feed.post";
       atproto.Repo := xrpc.Did (xrpc.Auth client);
       atproto.Record_ := {| atproto.Text := text;
                             atproto.CreatedAt := time.Format now ISO8601 |} |}.

(** The [&Param{...}] literal of the scheduled closure: [data] is the
    captured variable, [newData] the snapshot just fetched. *)
Definition newParam (now : time.Time) (data newData : Data) : Param :=
  {| Yesterday := time.Format (time.AddDate_days now (-1)) layout_date;
     PostsCount := Posts data;
     PostsCountDiff := sub64 (Posts newData) (Posts data);
     FollowsCount := Follows data;
     FollowsCountDiff := sub64 (Follows newData) (Follows data);
     FollowersCount := Followers data;
     FollowersCountDiff := sub64 (Followers newData) (Followers data) |}.

(** The closure handed to the scheduler, run once per tick. It reads the
    captured [data] and contains no assignment to it. *)
Definition job (tmpl : Template) (client : xrpc.Client) (env : TickEnv) : M unit :=
  let* r := fetchData (tick_remote env) client in
  match r with
  | Err err => Printf "failed to update data" err
  | Ok newData =>
      let* s := get in
      let param := newParam (now_param env) (data s) newData in
      match tmpl param with
      | Err err => Printf "failed to execute template" err
      | Ok text =>
          let* rp := post (tick_remote env) (now_post env) client text in
          match rp with
          | Err err => Printf "failed to post" err
          | Ok _ => Println "post success"
          end
      end
  end.

(** [s.StartBlocking()], over the ticks that occur: the scheduler runs
    the job at each of them; no panic handler is installed, so a panic
    of the job ends the process. *)
Fixpoint StartBlocking (j : TickEnv -> M unit) (ticks : list TickEnv) : M unit :=
  match ticks with
  | [] => ret tt
  | env :: rest => let* _ := j env in StartBlocking j rest
  end.

(** [template.New("post").Funcs(funcMap).Parse(POST_FORMAT)]: the
    constant parses. *)
Definition template_Parse : result Template := Ok POST_FORMAT.

Definition main (env : Env) (ticks : list TickEnv) : M unit :=
  match template_Parse with
  | Err err => Fatalf "failed to parse template" err
  | Ok tmpl =>
      match loadConfig env with
      | Err err => Fatalf "failed to load config" err
      | Ok cfg =>
          let* rc := newClient env cfg in
          match rc with
          | Err err => Fatalf "failed to create client" err
          | Ok client =>
              let* rd := fetchData (remote env) client in
              match rd with
              | Err err => Fatalf "failed to initialize data" err
              | Ok d =>
                  let* _ := modify (set_data d) in
                  let* _ := Println "Starting..." in
                  StartBlocking (job tmpl client) ticks
              end
          end
      end
  end.

End Program.

(** The three ways a tick fails, each with the line the job logs for it:
    the fetch returns an error, the template execution returns an error,
    or the publication returns an error. *)
Inductive tick_fails (tmpl : Template) (client : xrpc.Client) (env : TickEnv) (s : State)
  : LogLine -> Prop :=
| fetch_error (err : error) :
    (fetchData (tick_remote env) client s).1 = Return (Err err) ->
    tick_fails tmpl client env s (log_Printf "failed to update data" err)
| render_error (newData : Data) (err : error) :
    (fetchData (tick_remote env) client s).1 = Return (Ok newData) ->
    tmpl (newParam (now_param env) (data s) newData) = Err err ->
    tick_fails tmpl client env s (log_Printf "failed to execute template" err)
| publish_error (newData : Data) (text : string) (err : error) :
    (fetchData (tick_remote env) client s).1 = Return (Ok newData) ->
    tmpl (newParam (now_param env) (data s) newData) = Ok text ->
    (post (tick_remote env) (now_post env) client text
       (fetchData (tick_remote env) client s).2).1 = Return (Err err) ->
    tick_fails tmpl client env s (log_Printf "failed to post" err).

(** ** A codec instance and concrete scenarios *)

(** An instance of the codec for flat objects whose members are strings
    without escapes, which is the shape of a marshalled [xrpc.AuthInfo]
    with plain tokens. The double quote is written by its character
    code. *)
Definition dq : ascii := ascii_of_nat 34.

Definition quoted (s : string) : string := String dq (s +:+ String dq "").

Definition flat_Marshal (a : xrpc.AuthInfo) : result string :=
  Ok ("{" +:+ quoted "accessJwt" +:+ ":" +:+ quoted (xrpc.AccessJwt a)
      +:+ "," +:+ quoted "refreshJwt" +:+ ":" +:+ quoted (xrpc.RefreshJwt a)
      +:+ "," +:+ quoted "handle" +:+ ":" +:+ quoted (xrpc.Handle a)
      +:+ "," +:+ quoted "did" +:+ ":" +:+ quoted (xrpc.Did a) +:+ "}").

(** The characters before the next double quote, and what follows it. *)
Fixpoint until_quote (s : string) : option (string * string) :=
  match s with
  | EmptyString => None
  | String c rest =>
      if Ascii.eqb c dq then Some ("", rest)
      else match until_quote rest with
           | Some (v, r) => Some (String c v, r)
           | None => None
           end
  end.

Definition set_member (key val : string) (a : xrpc.AuthInfo) : xrpc.AuthInfo :=
  if String.eqb key "accessJwt" then
    xrpc.mkAuthInfo val (xrpc.RefreshJwt a) (xrpc.Handle a) (xrpc.Did a)
  else if String.eqb key "refreshJwt" then
    xrpc.mkAuthInfo (xrpc.AccessJwt a) val (xrpc.Handle a) (xrpc.Did a)
  else if String.eqb key "handle" then
    xrpc.mkAuthInfo (xrpc.AccessJwt a) (xrpc.RefreshJwt a) val (xrpc.Did a)
  else if String.eqb key "did" then
    xrpc.mkAuthInfo (xrpc.AccessJwt a) (xrpc.RefreshJwt a) (xrpc.Handle a) val
  else a.

(** Members [key:value] separated by commas, up to the closing brace. *)
Fixpoint members (fuel : nat) (s : string) (a : xrpc.AuthInfo) : option xrpc.AuthInfo :=
  match fuel with
  | O => None
  | S fuel' =>
      match s with
      | String q rest =>
          if Ascii.eqb q dq then
            match until_quote rest with
            | Some (key, String ":" (String q' rest')) =>
                if Ascii.eqb q' dq then
                  match until_quote rest' with
                  | Some (val, String "}" EmptyString) => Some (set_member key val a)
                  | Some (val, String "," rest'') =>
                      members fuel' rest'' (set_member key val a)
                  | _ => None
                  end
                else None
            | _ => None
            end
          else None
      | EmptyString => None
      end
  end.

Definition flat_Unmarshal (b : string) (a : xrpc.AuthInfo) : result xrpc.AuthInfo :=
  match b with
  | EmptyString => Err (errors_New "unexpected end of JSON input")
  | String "{" (String "}" EmptyString) => Ok a
  | String "{" rest =>
      match members (String.length rest) rest a with
      | Some a' => Ok a'
      | None => Err (errors_New "invalid character in JSON input")
      end
  | _ => Err (errors_New "invalid character in JSON input")
  end.

#[export] Instance flat_json : JSON :=
  {| json_Marshal := flat_Marshal;
     json_Unmarshal := flat_Unmarshal;
     json_Unmarshal_empty := fun _ => eq_refl |}.

Module Scenario.

Definition cfg : Config :=
  {| Host := "https://bsky.social"; Handle := "alice.bsky.social";
     Password := "app-password" |}.

(** Credentials written by an earlier run. *)
Definition cached : xrpc.AuthInfo :=
  {| xrpc.AccessJwt := "access-0"; xrpc.RefreshJwt := "refresh-0";
     xrpc.Handle := "alice.bsky.social"; xrpc.Did := "did:plc:alice" |}.

Definition refreshed : atproto.Session :=
  {| atproto.Did := "did:plc:alice"; atproto.AccessJwt := "access-1";
     atproto.RefreshJwt := "refresh-1" |}.

Definition created : atproto.Session :=
  {| atproto.Did := "did:plc:alice"; atproto.AccessJwt := "access-2";
     atproto.RefreshJwt := "refresh-2" |}.

Definition profile (posts follows followers : Z) : bsky.Profile :=
  {| bsky.PostsCount := Some posts; bsky.FollowsCount := Some follows;
     bsky.FollowersCount := Some followers |}.

(** A remote whose identity service accepts the stored refresh token
    and the password, and whose profile shows the given counters. *)
Definition remote_accepting (p : result bsky.Profile) : Remote :=
  {| ServerRefreshSession_rpc := fun _ => Ok refreshed;
     ServerCreateSession_rpc := fun _ _ _ => Ok created;
     ActorGetProfile_rpc := fun _ _ => p;
     RepoCreateRecord_rpc := fun _ _ =>
       Ok {| atproto.Cid := "cid"; atproto.Uri := "at://did:plc:alice/app.bsky.feed.post/1" |} |}.

(** The same, but the refresh token is rejected. *)
Definition remote_rejecting (p : result bsky.Profile) : Remote :=
  {| ServerRefreshSession_rpc := fun _ => Err (errors_New "ExpiredToken");
     ServerCreateSession_rpc := fun _ _ _ => Ok created;
     ActorGetProfile_rpc := fun _ _ => p;
     RepoCreateRecord_rpc := fun _ _ =>
       Ok {| atproto.Cid := "cid"; atproto.Uri := "at://did:plc:alice/app.bsky.feed.post/1" |} |}.

(** A remote on which every procedure fails. *)
Definition remote_down : Remote :=
  {| ServerRefreshSession_rpc := fun _ => Err (errors_New "connection refused");
     ServerCreateSession_rpc := fun _ _ _ => Err (errors_New "connection refused");
     ActorGetProfile_rpc := fun _ _ => Err (errors_New "connection refused");
     RepoCreateRecord_rpc := fun _ _ => Err (errors_New "connection refused") |}.

(** In the scenarios the digest is a fixed string; no statement depends
    on which function names the file. *)
Definition digest (_ : string) : string := "5d41402abc4b2a76".

Definition env_of (r : Remote) : Env :=
  {| loadConfig := Ok cfg;
     sha256_hex := digest;
     os_Create_fault := fun _ => None;
     io_ReadAll_fault := fun _ => None;
     file_Write_fault := fun _ => None;
     remote := r |}.

Definition env_accepting : Env := env_of (remote_accepting (Ok (profile 100 10 50))).
Definition env_rejecting : Env := env_of (remote_rejecting (Ok (profile 100 10 50))).

(** The cache file cannot be opened for writing. *)
Definition env_readonly : Env :=
  {| loadConfig := Ok cfg;
     sha256_hex := digest;
     os_Create_fault := fun _ => Some (errors_New "permission denied");
     io_ReadAll_fault := fun _ => None;
     file_Write_fault := fun _ => None;
     remote := remote_accepting (Ok (profile 100 10 50)) |}.

Definition cache_name : string := "auth_5d41402abc4b2a76.json".

Definition cache_content : string :=
  match flat_Marshal cached with Ok b => b | Err _ => "" end.

Definition zero_data : Data := {| Posts := 0; Follows := 0; Followers := 0 |}.

(** A first run: no file. *)
Definition fresh : State :=
  {| fs := ∅; offset := 0; calls := []; log := []; data := zero_data |}.

(** A later run: the cache file of the earlier run is there. *)
Definition with_cache : State :=
  {| fs := {[ cache_name := cache_content ]}; offset := 0; calls := [];
     log := []; data := zero_data |}.

Definition client : xrpc.Client :=
  {| xrpc.Host := "https://bsky.social";
     xrpc.Auth := {| xrpc.AccessJwt := "access-2"; xrpc.RefreshJwt := "refresh-2";
                     xrpc.Handle := "alice.bsky.social"; xrpc.Did := "did:plc:alice" |} |}.

(** Local midnight of 2023-07-01 and of 2023-07-02 in a zone nine hours
    east of UTC. *)
Definition midnight_1 : time.Time :=
  {| time.unixMilli := 1688137200000; time.zoneOffset := 32400 |}.
Definition midnight_2 : time.Time :=
  {| time.unixMilli := 1688223600000; time.zoneOffset := 32400 |}.

Definition tick_at (now : time.Time) (p : result bsky.Profile) : TickEnv :=
  {| tick_remote := remote_accepting p; now_param := now; now_post := now |}.

Definition day_1 : TickEnv := tick_at midnight_1 (Ok (profile 105 10 48)).
Definition day_2 : TickEnv := tick_at midnight_2 (Ok (profile 110 10 48)).

(** A day on which the profile read fails. *)
Definition day_down : TickEnv :=
  {| tick_remote := remote_down; now_param := midnight_1; now_post := midnight_1 |}.

(** A day on which the profile comes back without its posts counter. *)
Definition day_missing : TickEnv :=
  tick_at midnight_1
    (Ok {| bsky.PostsCount := None; bsky.FollowsCount := Some 10%Z;
           bsky.FollowersCount := Some 48%Z |}).

(** A day on which the profile is read but the publication fails. *)
Definition day_unpublished : TickEnv :=
  {| tick_remote :=
       {| ServerRefreshSession_rpc := fun _ => Ok refreshed;
          ServerCreateSession_rpc := fun _ _ _ => Ok created;
          ActorGetProfile_rpc := fun _ _ => Ok (profile 105 10 48);
          RepoCreateRecord_rpc := fun _ _ => Err (errors_New "connection refused") |};
     now_param := midnight_1; now_post := midnight_1 |}.

(** A template whose execution fails. *)
Definition failing_template : Template :=
  fun _ => Err (errors_New "template: post: execution failed").

(** What a first run that obtains [client] writes into the cache file. *)
Definition saved_content : string :=
  match flat_Marshal (xrpc.Auth client) with Ok b => b | Err _ => "" end.

(** The process after startup with the baseline {100, 10, 50}. *)
Definition running : State :=
  {| fs := {[ cache_name := cache_content ]}; offset := 0; calls := [];
     log := [log_Println "Starting..."];
     data := {| Posts := 100; Follows := 10; Followers := 50 |} |}.

End Scenario.

(** ** Notions used to state the properties of the startup and of the ticks *)

(** The client [newClient] starts from: the host and the handle of the
    configuration and no token. *)
Definition bare_client (cfg : Config) : xrpc.Client :=
  {| xrpc.Host := Host cfg;
     xrpc.Auth := {| xrpc.AccessJwt := ""; xrpc.RefreshJwt := "";
                     xrpc.Handle := Handle cfg; xrpc.Did := "" |} |}.

(** A profile that lacks at least one of its three counters. *)
Definition counter_absent (profile : bsky.Profile) : Prop :=
  bsky.PostsCount profile = None \/ bsky.FollowsCount profile = None \/
  bsky.FollowersCount profile = None.

(** A tick at which the profile, when the remote returns one to this
    client, carries its three counters. *)
Definition counters_present (client : xrpc.Client) (env : TickEnv) : Prop :=
  forall profile,
    ActorGetProfile_rpc (tick_remote env) client (xrpc.Handle (xrpc.Auth client)) = Ok profile ->
    ~ counter_absent profile.

(** The record [post] builds for a text at a time. *)
Definition post_input (client : xrpc.Client) (now : time.Time) (text : string)
  : atproto.RepoCreateRecord_Input :=
  {| atproto.Collection := "app.bsky.feed.post";
     atproto.Repo := xrpc.Did (xrpc.Auth client);
     atproto.Record_ := {| atproto.Text := text;
                           atproto.CreatedAt := time.Format now ISO8601 |} |}.

(** A string of exactly [n] decimal digits. *)
Definition is_digit (c : ascii) : bool :=
  (48 <=? nat_of_ascii c)%nat && (nat_of_ascii c <=? 57)%nat.

Fixpoint digit_string (n : nat) (s : string) : bool :=
  match n, s with
  | O, EmptyString => true
  | S n', String c s' => is_digit c && digit_string n' s'
  | _, _ => false
  end.

(** * Properties *)

(** ** int64 arithmetic and decimal rendering *)

Lemma wrap64_small (z : Z) : is_int64 z -> wrap64 z = z.
Proof.
  unfold is_int64, int64_min, int64_max, wrap64. intros Hz.
  rewrite Z.mod_small; lia.
Qed.

Lemma wrap64_is_int64 (z : Z) : is_int64 (wrap64 z).
Proof.
  unfold is_int64, int64_min, int64_max, wrap64.
  pose proof (Z.mod_pos_bound (z + 2 ^ 63) (2 ^ 64) ltac:(lia)). lia.
Qed.

Lemma sub64_diag (a : Z) : sub64 a a = 0%Z.
Proof. unfold sub64. rewrite Z.sub_diag. reflexivity. Qed.

Lemma sub64_exact (a b : Z) : is_int64 (a - b) -> sub64 a b = (a - b)%Z.
Proof. apply wrap64_small. Qed.

(** Counters are counts: between two non-negative int64 values the
    subtraction cannot overflow. *)
Lemma sub64_counts (a b : Z) :
  (0 <= a <= int64_max)%Z -> (0 <= b <= int64_max)%Z -> sub64 a b = (a - b)%Z.
Proof.
  intros Ha Hb. apply sub64_exact.
  unfold is_int64, int64_min, int64_max in *. lia.
Qed.

(** The rendering of a negative number is a minus sign followed by the
    rendering of its magnitude. *)
Lemma fmt_d_neg (d : Z) : (d < 0)%Z -> fmt_d d = "-" +:+ fmt_d (- d).
Proof.
  destruct d as [|p|p]; try lia. intros _. reflexivity.
Qed.

(** What [fmt_d] prints reads back as the number printed. *)
Lemma fmt_d_reads_back (z : Z) :
  option_map Z.of_int (NilZero.int_of_string (fmt_d z)) = Some z.
Proof.
  unfold fmt_d.
  destruct z as [|p|p].
  - reflexivity.
  - rewrite NilZero.isi.
    + cbn [option_map]. f_equal. apply (DecimalZ.of_to (Z.pos p)).
    + cbn [Z.to_int]. intros [= H]. exact (DecimalPos.Unsigned.to_uint_nonnil p H).
    + discriminate.
  - rewrite NilZero.isi.
    + cbn [option_map]. f_equal. apply (DecimalZ.of_to (Z.neg p)).
    + discriminate.
    + cbn [Z.to_int]. intros [= H]. exact (DecimalPos.Unsigned.to_uint_nonnil p H).
Qed.

(** ** formatDiff *)

(** C5. For every integer [d]: [formatDiff 0] is the string [±0]; for a
    positive [d] it is a plus sign followed by the decimal rendering of
    [d]; for a negative [d] it is the plain signed decimal rendering of
    [d], whose own minus sign is the only prefix. *)
Theorem formatDiff_spec (d : Z) :
  (d = 0%Z -> formatDiff d = "±0") /\
  ((0 < d)%Z -> formatDiff d = "+" +:+ fmt_d d) /\
  ((d < 0)%Z -> formatDiff d = fmt_d d /\ fmt_d d = "-" +:+ fmt_d (- d)).
Proof.
  unfold formatDiff. repeat split.
  - intros ->. reflexivity.
  - intros Hd.
    destruct (Z.eqb_spec d 0); [lia|].
    destruct (Z.gtb_spec d 0); [reflexivity|lia].
  - destruct (Z.eqb_spec d 0); [lia|].
    destruct (Z.gtb_spec d 0); [lia|reflexivity].
  - now apply fmt_d_neg.
Qed.

Lemma formatDiff_spec_witness :
  formatDiff 0 = "±0" /\ formatDiff 5 = "+5" /\ formatDiff (-2) = "-2".
Proof.
  split; [|split].
  - exact (proj1 (formatDiff_spec 0) eq_refl).
  - exact (proj1 (proj2 (formatDiff_spec 5)) eq_refl).
  - exact (proj1 (proj2 (proj2 (formatDiff_spec (-2))) eq_refl)).
Defined.

(** ** The parameters of the message *)

(** C6. For all snapshots [A] (old) and [B] (new) the three diffs of the
    render parameters are [B]'s counter minus [A]'s, the subtraction being
    Go's on int64; between counters that are counts (non-negative) this is
    the mathematical difference; and the delta of a snapshot against
    itself is zero in all three fields. *)
Theorem newParam_diffs (now : time.Time) (A B : Data) :
  (PostsCountDiff (newParam now A B) = sub64 (Posts B) (Posts A) /\
   FollowsCountDiff (newParam now A B) = sub64 (Follows B) (Follows A) /\
   FollowersCountDiff (newParam now A B) = sub64 (Followers B) (Followers A)) /\
  (((0 <= Posts A <= int64_max)%Z -> (0 <= Posts B <= int64_max)%Z ->
    PostsCountDiff (newParam now A B) = (Posts B - Posts A)%Z) /\
   ((0 <= Follows A <= int64_max)%Z -> (0 <= Follows B <= int64_max)%Z ->
    FollowsCountDiff (newParam now A B) = (Follows B - Follows A)%Z) /\
   ((0 <= Followers A <= int64_max)%Z -> (0 <= Followers B <= int64_max)%Z ->
    FollowersCountDiff (newParam now A B) = (Followers B - Followers A)%Z)) /\
  (PostsCountDiff (newParam now A A) = 0%Z /\
   FollowsCountDiff (newParam now A A) = 0%Z /\
   FollowersCountDiff (newParam now A A) = 0%Z).
Proof.
  cbn [newParam PostsCountDiff FollowsCountDiff FollowersCountDiff].
  split; [auto|split].
  - repeat split; intros; now apply sub64_counts.
  - repeat split; apply sub64_diag.
Qed.

Lemma newParam_diffs_witness :
  PostsCountDiff (newParam Scenario.midnight_1 (mkData 100 10 50) (mkData 105 10 48)) = 5%Z /\
  FollowsCountDiff (newParam Scenario.midnight_1 (mkData 100 10 50) (mkData 105 10 48)) = 0%Z /\
  FollowersCountDiff (newParam Scenario.midnight_1 (mkData 100 10 50) (mkData 105 10 48)) = (-2)%Z.
Proof.
  pose proof (newParam_diffs Scenario.midnight_1 (mkData 100 10 50) (mkData 105 10 48))
    as (_ & (Hp & Hf & Hr) & _).
  cbn [Posts Follows Followers] in Hp, Hf, Hr. unfold int64_max in Hp, Hf, Hr.
  split; [|split].
  - rewrite Hp; [reflexivity|lia|lia].
  - rewrite Hf; [reflexivity|lia|lia].
  - rewrite Hr; [reflexivity|lia|lia].
Defined.

(** ** The timestamp of a published record *)

(** The record handed to the remote carries the wall clock of [now] in
    [now]'s own zone, followed by the literal [Z]. *)
Lemma post_run (r : Remote) (now : time.Time) (client : xrpc.Client) (text : string)
    (s : State) :
  let input :=
    {| atproto.Collection := "app.bsky.feed.post";
       atproto.Repo := xrpc.Did (xrpc.Auth client);
       atproto.Record_ := {| atproto.Text := text;
                             atproto.CreatedAt := time.Format now ISO8601 |} |} in
  post r now client text s =
    (Return (RepoCreateRecord_rpc r client input), add_call (RepoCreateRecord_call input) s).
Proof. reflexivity. Qed.

(** When the process runs in UTC the timestamp is the UTC time. *)
Lemma Format_UTC_zone (now : time.Time) (layout : list time.chunk) :
  time.zoneOffset now = 0%Z -> time.Format now layout = time.Format (time.UTC now) layout.
Proof.
  destruct now as [ms off]. cbn [time.zoneOffset]. intros ->. reflexivity.
Qed.

(** C7, at an input where the code departs from it. The claim: every
    published record carries the current time in UTC, in the form
    YYYY-MM-DDTHH:MM:SS.mmmZ. The process runs nine hours east of UTC and
    publishes at its local midnight of 2023-07-01: the form is the claimed
    one, but the record carries the local wall clock, 2023-07-01T00:00:00,
    marked Z, while the time in UTC is 2023-06-30T15:00:00. *)
Theorem post_createdAt_is_local_wall_clock :
  calls (post (tick_remote Scenario.day_1) Scenario.midnight_1 Scenario.client "text"
           Scenario.running).2 =
    [RepoCreateRecord_call
       {| atproto.Collection := "app.bsky.feed.post";
          atproto.Repo := "did:plc:alice";
          atproto.Record_ := {| atproto.Text := "text";
                                atproto.CreatedAt := "2023-07-01T00:00:00.000Z" |} |}] /\
  time.Format (time.UTC Scenario.midnight_1) ISO8601 = "2023-06-30T15:00:00.000Z".
Proof. split; vm_compute; reflexivity. Qed.

(** ** fetchData *)

(** Every run of [fetchData]: one profile read is issued, and the result
    follows from its answer. *)
Lemma fetchData_run (r : Remote) (client : xrpc.Client) (s : State) :
  let actor := xrpc.Handle (xrpc.Auth client) in
  fetchData r client s =
    (match ActorGetProfile_rpc r client actor with
     | Err err => Return (Err (xerrors_Errorf "failed to get profile" err))
     | Ok profile =>
         match bsky.PostsCount profile, bsky.FollowsCount profile,
               bsky.FollowersCount profile with
         | Some a, Some b, Some c => Return (Ok (mkData a b c))
         | _, _, _ => Panic "runtime error: invalid memory address or nil pointer dereference"
         end
     end, add_call (ActorGetProfile_call actor) s).
Proof.
  cbv zeta. unfold fetchData, bsky_ActorGetProfile, bind, modify, ret.
  destruct (ActorGetProfile_rpc r client _) as [[[a|] [b|] [c|]]|err]; reflexivity.
Qed.

Lemma fetchData_calls (r : Remote) (client : xrpc.Client) (s : State) :
  (fetchData r client s).2 =
    add_call (ActorGetProfile_call (xrpc.Handle (xrpc.Auth client))) s.
Proof. rewrite fetchData_run. reflexivity. Qed.

(** C4 as stated fails: a profile without its posts counter makes
    [fetchData] panic; no error value is returned. *)
Lemma fetchData_absent_counter_panics :
  (fetchData (tick_remote Scenario.day_missing) Scenario.client Scenario.running).1
    = Panic "runtime error: invalid memory address or nil pointer dereference" /\
  ~ (exists e : error,
       (fetchData (tick_remote Scenario.day_missing) Scenario.client Scenario.running).1
         = Return (Err e)).
Proof.
  split; [reflexivity|]. intros [e He]. vm_compute in He. discriminate He.
Qed.

(** C4, amended. When the remote call errors, [fetchData] returns that
    error wrapped as "failed to get profile" (the upstream error), and
    this is the only error value it ever returns; when the call succeeds
    and the three counters are present it returns them; when the call
    succeeds and a counter is absent it does not return at all: the nil
    dereference panics. *)
Theorem fetchData_outcomes (r : Remote) (client : xrpc.Client) (s : State) :
  let actor := xrpc.Handle (xrpc.Auth client) in
  (forall err, ActorGetProfile_rpc r client actor = Err err ->
     (fetchData r client s).1 = Return (Err (xerrors_Errorf "failed to get profile" err))) /\
  (forall e, (fetchData r client s).1 = Return (Err e) ->
     exists err, ActorGetProfile_rpc r client actor = Err err /\
                 e = xerrors_Errorf "failed to get profile" err) /\
  (forall a b c, ActorGetProfile_rpc r client actor = Ok (bsky.mkProfile (Some a) (Some b) (Some c)) ->
     (fetchData r client s).1 = Return (Ok (mkData a b c))) /\
  (forall profile, ActorGetProfile_rpc r client actor = Ok profile ->
     bsky.PostsCount profile = None \/ bsky.FollowsCount profile = None \/
       bsky.FollowersCount profile = None ->
     (fetchData r client s).1 = Panic "runtime error: invalid memory address or nil pointer dereference").
Proof.
  intros actor. rewrite fetchData_run. fold actor. cbn [fst].
  repeat split.
  - intros err ->. reflexivity.
  - destruct (ActorGetProfile_rpc r client actor) as [[[a|] [b|] [c|]]|err];
      cbn; intros e [= <-] || intros e [=]. now exists err.
  - intros a b c ->. reflexivity.
  - intros profile -> H. destruct profile as [[a|] [b|] [c|]]; cbn in *;
      try reflexivity. destruct H as [H|[H|H]]; discriminate H.
Qed.

Lemma fetchData_outcomes_witness :
  (fetchData (tick_remote Scenario.day_down) Scenario.client Scenario.running).1
    = Return (Err (xerrors_Errorf "failed to get profile" (errors_New "connection refused"))) /\
  (fetchData (tick_remote Scenario.day_1) Scenario.client Scenario.running).1
    = Return (Ok (mkData 105 10 48)) /\
  (fetchData (tick_remote Scenario.day_missing) Scenario.client Scenario.running).1
    = Panic "runtime error: invalid memory address or nil pointer dereference".
Proof.
  split; [|split].
  - exact (proj1 (fetchData_outcomes (tick_remote Scenario.day_down) Scenario.client
                    Scenario.running) _ eq_refl).
  - exact (proj1 (proj2 (proj2 (fetchData_outcomes (tick_remote Scenario.day_1)
                    Scenario.client Scenario.running))) _ _ _ eq_refl).
  - exact (proj2 (proj2 (proj2 (fetchData_outcomes (tick_remote Scenario.day_missing)
                    Scenario.client Scenario.running))) _ eq_refl (or_introl eq_refl)).
Defined.

(** ** The scheduled job *)

Lemma fetchData_ok_inv (r : Remote) (client : xrpc.Client) (s : State) (o : outcome (result Data)) :
  (fetchData r client s).1 = o ->
  fetchData r client s =
    (o, add_call (ActorGetProfile_call (xrpc.Handle (xrpc.Auth client))) s).
Proof.
  intros <-. rewrite <- (fetchData_calls r client s). now destruct (fetchData r client s).
Qed.

(** Case analysis over the answers of the remote during one tick, for
    statements that hold by computation in each case. *)
Ltac job_cases tmpl :=
  unfold job, bind; rewrite fetchData_run;
  destruct (ActorGetProfile_rpc _ _ _) as [[[?|] [?|] [?|]]|?]; try reflexivity;
  cbn; destruct (tmpl _) as [?|?]; [|reflexivity];
  cbn; destruct (RepoCreateRecord_rpc _ _ _); reflexivity.

(** No run of the job changes the captured baseline [data]: the closure
    has no assignment to it. *)
Lemma job_preserves_data (tmpl : Template) (client : xrpc.Client) (env : TickEnv) (s : State) :
  data (job tmpl client env s).2 = data s.
Proof.
  job_cases tmpl.
Qed.

(** The job touches no file. *)
Lemma job_preserves_fs (tmpl : Template) (client : xrpc.Client) (env : TickEnv) (s : State) :
  fs (job tmpl client env s).2 = fs s.
Proof.
  job_cases tmpl.
Qed.

(** Over any number of ticks the baseline stays what it was at startup. *)
Lemma StartBlocking_preserves_data (tmpl : Template) (client : xrpc.Client)
    (ticks : list TickEnv) (s : State) :
  data (StartBlocking (job tmpl client) ticks s).2 = data s.
Proof.
  revert s. induction ticks as [|env ticks IH]; intros s; [reflexivity|].
  cbn [StartBlocking]. unfold bind.
  pose proof (job_preserves_data tmpl client env s) as Hjob.
  destruct (job tmpl client env s) as [[[]|msg|code] s1]; cbn [snd] in *.
  - rewrite IH. exact Hjob.
  - exact Hjob.
  - exact Hjob.
Qed.

(** A tick at which a step returns an error: the job logs the error with
    [log.Printf] and returns, and the baseline [data] is what it was
    before the tick. *)
Lemma job_error_logged_baseline_kept (tmpl : Template) (client : xrpc.Client)
    (env : TickEnv) (s : State) (line : LogLine) :
  tick_fails tmpl client env s line ->
  (job tmpl client env s).1 = Return tt /\
  log (job tmpl client env s).2 = (log s ++ [line])%list /\
  (exists msg err, line = log_Printf msg err) /\
  data (job tmpl client env s).2 = data s /\
  (forall now newData,
     newParam now (data (job tmpl client env s).2) newData = newParam now (data s) newData).
Proof.
  intros Hfail.
  assert (Hdata : data (job tmpl client env s).2 = data s) by apply job_preserves_data.
  assert (Hrun : (job tmpl client env s).1 = Return tt /\
                 log (job tmpl client env s).2 = (log s ++ [line])%list).
  { inversion Hfail as [err Hf|newData err Hf Ht|newData text err Hf Ht Hp]; subst line.
    - apply fetchData_ok_inv in Hf. unfold job, bind. rewrite Hf. now cbn.
    - apply fetchData_ok_inv in Hf. unfold job, bind. rewrite Hf. cbn -[newParam].
      rewrite Ht. now cbn.
    - apply fetchData_ok_inv in Hf. rewrite Hf in Hp. cbn [snd] in Hp.
      rewrite post_run in Hp. cbv zeta in Hp. cbn [fst] in Hp. injection Hp as Hp.
      unfold job, bind. rewrite Hf. cbn -[newParam post].
      rewrite Ht, post_run. cbv zeta. rewrite Hp. now cbn. }
  destruct Hrun as [Hret Hlog].
  repeat split; try assumption.
  - inversion Hfail; eauto.
  - intros now newData. now rewrite Hdata.
Qed.

(** C3, at an input where the code departs from it. The claim: after a
    fully successful tick the snapshot just fetched replaces the baseline,
    so the next tick's diffs are against the preceding tick. With the
    baseline {100, 10, 50} the first tick fetches {105, 10, 48}, renders,
    publishes and logs "post success"; the baseline is still
    {100, 10, 50}. The second tick fetches {110, 10, 48} and publishes
    posts 100(+10), the sum over both days, where the claim gives +5. *)
Theorem baseline_not_advanced_by_successful_tick :
  let first := job POST_FORMAT Scenario.client Scenario.day_1 Scenario.running in
  let second := job POST_FORMAT Scenario.client Scenario.day_2 first.2 in
  first.1 = Return tt /\
  log first.2 = [log_Println "Starting..."; log_Println "post success"] /\
  data first.2 = mkData 100 10 50 /\
  data first.2 <> mkData 105 10 48 /\
  second.1 = Return tt /\
  last (calls second.2) =
    Some (RepoCreateRecord_call
            {| atproto.Collection := "app.bsky.feed.post";
               atproto.Repo := "did:plc:alice";
               atproto.Record_ :=
                 {| atproto.Text := "【2023-07-01の統計】
ポスト数: 100(+10)
フォロー数: 10(±0)
フォロワー数: 50(-2))";
                    atproto.CreatedAt := "2023-07-02T00:00:00.000Z" |} |}) /\
  formatDiff (sub64 110 105) = "+5".
Proof.
  cbv zeta. repeat split; try (vm_compute; reflexivity).
  vm_compute. discriminate.
Qed.

(** C10. In every message the job renders, the three absolute counters
    shown are those of the old baseline [data], not those of the snapshot
    just fetched; the fetched values enter the text through the three
    diffs only. The text below is the one handed to the remote as the
    record of the tick. *)
Theorem job_message_shows_baseline_counters (client : xrpc.Client) (env : TickEnv)
    (s : State) (newData : Data) :
  (fetchData (tick_remote env) client s).1 = Return (Ok newData) ->
  let param := newParam (now_param env) (data s) newData in
  let text :=
    "【" +:+ time.Format (time.AddDate_days (now_param env) (-1)) layout_date +:+ "の統計】
ポスト数: " +:+ fmt_d (Posts (data s)) +:+ "("
      +:+ formatDiff (sub64 (Posts newData) (Posts (data s))) +:+ ")
フォロー数: " +:+ fmt_d (Follows (data s)) +:+ "("
      +:+ formatDiff (sub64 (Follows newData) (Follows (data s))) +:+ ")
フォロワー数: " +:+ fmt_d (Followers (data s)) +:+ "("
      +:+ formatDiff (sub64 (Followers newData) (Followers (data s))) +:+ "))" in
  (PostsCount param = Posts (data s) /\
   FollowsCount param = Follows (data s) /\
   FollowersCount param = Followers (data s)) /\
  POST_FORMAT param = Ok text /\
  calls (job POST_FORMAT client env s).2 =
    (calls s ++
     [ActorGetProfile_call (xrpc.Handle (xrpc.Auth client));
      RepoCreateRecord_call
        {| atproto.Collection := "app.bsky.feed.post";
           atproto.Repo := xrpc.Did (xrpc.Auth client);
           atproto.Record_ :=
             {| atproto.Text := text;
                atproto.CreatedAt := time.Format (now_post env) ISO8601 |} |}])%list.
Proof.
  intros Hf param text. split; [|split].
  - now cbn.
  - reflexivity.
  - apply fetchData_ok_inv in Hf.
    unfold job, bind. rewrite Hf. cbn -[newParam post POST_FORMAT].
    change (POST_FORMAT (newParam (now_param env) (data s) newData)) with (Ok text).
    cbv beta iota. rewrite post_run. cbv zeta.
    destruct (RepoCreateRecord_rpc _ _ _); cbn; now rewrite <- app_assoc.
Qed.

Lemma job_message_shows_baseline_counters_witness :
  last (calls (job POST_FORMAT Scenario.client Scenario.day_1 Scenario.running).2) =
    Some (RepoCreateRecord_call
            {| atproto.Collection := "app.bsky.feed.post";
               atproto.Repo := "did:plc:alice";
               atproto.Record_ :=
                 {| atproto.Text := "【2023-06-30の統計】
ポスト数: 100(+5)
フォロー数: 10(±0)
フォロワー数: 50(-2))";
                    atproto.CreatedAt := "2023-07-01T00:00:00.000Z" |} |}).
Proof.
  pose proof (job_message_shows_baseline_counters Scenario.client Scenario.day_1
                Scenario.running (mkData 105 10 48) eq_refl) as (_ & _ & Hcalls).
  rewrite Hcalls. vm_compute. reflexivity.
Defined.

(** ** Session bootstrap *)

(** Every startup that finds the cache file: [os.Create] either fails, or
    truncates the file; the read then returns the empty content, whose
    decoding fails. *)
Lemma newClient_cache_present_run `{codec : JSON} (env : Env) (cfg : Config) (s : State) :
  is_Some (fs s !! authFileName env cfg) ->
  newClient env cfg s =
    match os_Create_fault env (authFileName env cfg) with
    | Some e => (Return (Err (xerrors_Errorf "failed to open auth file" e)), s)
    | None =>
        let s1 := set_offset 0 (set_fs (<[authFileName env cfg := ""]> (fs s)) s) in
        match io_ReadAll_fault env (authFileName env cfg) with
        | Some e => (Return (Err (xerrors_Errorf "failed to read auth file" e)), s1)
        | None =>
            (Return (Err (xerrors_Errorf "failed to parse auth file"
                            (errors_New "unexpected end of JSON input"))), s1)
        end
    end.
Proof.
  intros [old Hold].
  unfold newClient, existsFile, os_Stat, os_Create, io_ReadAll, bind, get, ret, modify.
  rewrite Hold. cbn [is_Err negb].
  destruct (os_Create_fault env (authFileName env cfg)) as [e|]; [reflexivity|].
  cbn [Name]. destruct (io_ReadAll_fault env (authFileName env cfg)) as [e|]; [reflexivity|].
  unfold contents. cbn [Name fs set_offset set_fs offset].
  rewrite lookup_insert_eq. cbn [default drop_string String.length String.substring Nat.sub].
  rewrite json_Unmarshal_empty. reflexivity.
Qed.

(** C9 as stated fails where [os.Create] fails: the cache file is there
    but cannot be opened for writing; [newClient] returns the error of the
    open and the cached credentials are still in the file. *)
Lemma newClient_unwritable_cache_kept :
  fs Scenario.with_cache !! Scenario.cache_name = Some Scenario.cache_content /\
  (newClient Scenario.env_readonly Scenario.cfg Scenario.with_cache).1
    = Return (Err (xerrors_Errorf "failed to open auth file" (errors_New "permission denied"))) /\
  fs (newClient Scenario.env_readonly Scenario.cfg Scenario.with_cache).2
    !! Scenario.cache_name = Some Scenario.cache_content /\
  fs (newClient Scenario.env_readonly Scenario.cfg Scenario.with_cache).2
    !! Scenario.cache_name <> Some "".
Proof.
  repeat split; try (vm_compute; reflexivity).
  vm_compute. discriminate.
Qed.

(** C9, amended. For every startup in which the cache file exists,
    [newClient] returns an error and issues no remote call: the refresh
    and fallback branches are not reached. Whenever [os.Create] succeeds
    it has truncated the file to empty before the read, so the cached
    credentials are destroyed, and when the read succeeds too the error is
    the failed decoding of the empty content. When [os.Create] fails the
    file is left as it was and the error is that of the open. *)
Theorem newClient_cache_present_fails `{codec : JSON} (env : Env) (cfg : Config) (s : State) :
  let name := authFileName env cfg in
  is_Some (fs s !! name) ->
  (exists e, (newClient env cfg s).1 = Return (Err e)) /\
  calls (newClient env cfg s).2 = calls s /\
  (os_Create_fault env name = None ->
     fs (newClient env cfg s).2 = <[name := ""]> (fs s) /\
     (io_ReadAll_fault env name = None ->
        (newClient env cfg s).1 =
          Return (Err (xerrors_Errorf "failed to parse auth file"
                         (errors_New "unexpected end of JSON input"))))) /\
  (forall e, os_Create_fault env name = Some e ->
     fs (newClient env cfg s).2 = fs s /\
     (newClient env cfg s).1 = Return (Err (xerrors_Errorf "failed to open auth file" e))).
Proof.
  intros name Hex. rewrite (newClient_cache_present_run env cfg s Hex). fold name.
  destruct (os_Create_fault env name) as [e|].
  - cbn. split; [eauto|]. split; [reflexivity|]. split; [discriminate|].
    intros e' [= <-]. now split.
  - destruct (io_ReadAll_fault env name) as [e|]; cbn.
    + split; [eauto|]. split; [reflexivity|]. split; [|discriminate].
      intros _. split; [reflexivity|discriminate].
    + split; [eauto|]. split; [reflexivity|]. split; [|discriminate].
      intros _. split; reflexivity.
Qed.

Lemma newClient_cache_present_fails_witness :
  (newClient Scenario.env_accepting Scenario.cfg Scenario.with_cache).1 =
    Return (Err (xerrors_Errorf "failed to parse auth file"
                   (errors_New "unexpected end of JSON input"))) /\
  fs (newClient Scenario.env_accepting Scenario.cfg Scenario.with_cache).2
    = <[Scenario.cache_name := ""]> (fs Scenario.with_cache) /\
  calls (newClient Scenario.env_accepting Scenario.cfg Scenario.with_cache).2 = [].
Proof.
  pose proof (newClient_cache_present_fails Scenario.env_accepting Scenario.cfg
                Scenario.with_cache (ex_intro _ Scenario.cache_content eq_refl))
    as (_ & Hcalls & Htrunc & _).
  destruct (Htrunc eq_refl) as [Hfs Herr].
  split; [exact (Herr eq_refl)|split; [exact Hfs|exact Hcalls]].
Defined.

(** C1, at an input where the code departs from it. The claim: with a
    cache file present and a refresh token the identity service accepts,
    [newClient] loads the cached credentials, refreshes, adopts the new
    tokens and leaves the file as it is. The file holds the credentials of
    an earlier run and the service accepts the refresh: [newClient]
    returns the decoding error, no refresh is issued, and the file is
    empty afterwards. *)
Theorem valid_cache_is_truncated_not_refreshed :
  let run := newClient Scenario.env_accepting Scenario.cfg Scenario.with_cache in
  fs Scenario.with_cache !! authFileName Scenario.env_accepting Scenario.cfg
    = Some Scenario.cache_content /\
  json_Unmarshal Scenario.cache_content
    (xrpc.mkAuthInfo "" "" (Handle Scenario.cfg) "") = Ok Scenario.cached /\
  (forall c, ServerRefreshSession_rpc (remote Scenario.env_accepting) c
             = Ok Scenario.refreshed) /\
  run.1 = Return (Err (xerrors_Errorf "failed to parse auth file"
                         (errors_New "unexpected end of JSON input"))) /\
  calls run.2 = [] /\
  fs run.2 !! authFileName Scenario.env_accepting Scenario.cfg = Some "".
Proof.
  cbv zeta. repeat split; vm_compute; reflexivity.
Qed.

(** C2, at an input where the code departs from it. The claim: with a
    cache file present and a refresh that fails, [newClient] falls back to
    handle and password, persists the new credentials and returns the
    client. The service rejects the refresh token and accepts the
    password: [newClient] returns the decoding error before any call, the
    fallback authentication is never issued and nothing is persisted; the
    file is left empty. *)
Theorem rejected_cache_never_reauthenticates :
  let run := newClient Scenario.env_rejecting Scenario.cfg Scenario.with_cache in
  fs Scenario.with_cache !! authFileName Scenario.env_rejecting Scenario.cfg
    = Some Scenario.cache_content /\
  (forall c, is_Err (ServerRefreshSession_rpc (remote Scenario.env_rejecting) c) = true) /\
  (forall c id pw, ServerCreateSession_rpc (remote Scenario.env_rejecting) c id pw
                   = Ok Scenario.created) /\
  run.1 = Return (Err (xerrors_Errorf "failed to parse auth file"
                         (errors_New "unexpected end of JSON input"))) /\
  calls run.2 = [] /\
  fs run.2 !! authFileName Scenario.env_rejecting Scenario.cfg = Some "".
Proof.
  cbv zeta. repeat split; vm_compute; reflexivity.
Qed.

(** The first run, which finds no file, authenticates with handle and
    password and persists the credentials. *)
Lemma first_run_creates_and_saves :
  let run := newClient Scenario.env_accepting Scenario.cfg Scenario.fresh in
  run.1 = Return (Ok Scenario.client) /\
  calls run.2 = [ServerCreateSession_call "alice.bsky.social" "app-password"] /\
  option_map (fun b => json_Unmarshal b (xrpc.mkAuthInfo "" "" "" ""))
    (fs run.2 !! Scenario.cache_name) = Some (Ok (xrpc.Auth Scenario.client)).
Proof.
  cbv zeta. repeat split; vm_compute; reflexivity.
Qed.

(** * Further properties of the startup *)

Lemma substring_empty (n m : nat) : String.substring n m "" = "".
Proof. destruct n, m; reflexivity. Qed.

Lemma append_empty_r (b : string) : b +:+ "" = b.
Proof.
  induction b as [|c b IH]; [reflexivity|].
  change (String c (b +:+ "") = String c b). now f_equal.
Qed.

Lemma append_empty_l (b : string) : "" +:+ b = b.
Proof. reflexivity. Qed.

(** Every startup that finds no cache file: the file is created empty
    before anything else, the session is created with the handle and the
    password of the configuration, and the marshalled credentials are
    written into the file. *)
Lemma newClient_no_cache_run `{codec : JSON} (env : Env) (cfg : Config) (s : State) :
  fs s !! authFileName env cfg = None ->
  newClient env cfg s =
    match os_Create_fault env (authFileName env cfg) with
    | Some e => (Return (Err (xerrors_Errorf "failed to open auth file" e)), s)
    | None =>
        let s2 := add_call (ServerCreateSession_call (Handle cfg) (Password cfg))
                    (set_offset 0 (set_fs (<[authFileName env cfg := ""]> (fs s)) s)) in
        match ServerCreateSession_rpc (remote env) (bare_client cfg) (Handle cfg) (Password cfg) with
        | Err err =>
            (Return (Err (xerrors_Errorf "failed to create session"
                            (xerrors_Errorf "failed to create session" err))), s2)
        | Ok session =>
            match json_Marshal (xrpc.Auth (adopt (bare_client cfg) session)) with
            | Err err =>
                (Return (Err (xerrors_Errorf "failed to save session"
                                (xerrors_Errorf "failed to marshal auth" err))), s2)
            | Ok b =>
                match file_Write_fault env (authFileName env cfg) with
                | Some e =>
                    (Return (Err (xerrors_Errorf "failed to save session"
                                    (xerrors_Errorf "failed to write auth file" e))), s2)
                | None =>
                    (Return (Ok (adopt (bare_client cfg) session)),
                     set_offset (String.length b)
                       (set_fs (<[authFileName env cfg := b]> (fs s)) s2))
                end
            end
        end
    end.
Proof.
  intros Hnone.
  unfold newClient, existsFile, os_Stat, os_Create, bind, get, ret, modify.
  rewrite Hnone. cbn [is_Err negb].
  destruct (os_Create_fault env (authFileName env cfg)) as [e|]; [reflexivity|].
  unfold createSession, atproto_ServerCreateSession, bind, modify, ret.
  fold (bare_client cfg). cbn [xrpc.Auth xrpc.Handle bare_client].
  destruct (ServerCreateSession_rpc _ _ _ _) as [session|err]; [|reflexivity].
  unfold saveSession.
  destruct (json_Marshal _) as [b|err]; [|reflexivity].
  unfold file_Write, bind, get, ret, modify. cbn [Name].
  destruct (file_Write_fault env (authFileName env cfg)) as [e|]; [reflexivity|].
  unfold contents. cbn [Name fs set_offset set_fs offset add_call].
  rewrite lookup_insert_eq. cbn [default].
  unfold take_string, drop_string. rewrite !substring_empty.
  rewrite append_empty_l, append_empty_r, insert_insert_eq.
  reflexivity.
Qed.

(** X1. The first run. When no cache file exists, the file operations
    succeed, the identity service accepts handle and password and the
    credentials marshal, [newClient] returns the client carrying the
    host and handle of the configuration and the tokens of the session,
    has issued exactly one create-session call and no other, and the
    cache file holds exactly the marshalled credentials of that client. *)
Theorem newClient_first_run `{codec : JSON} (env : Env) (cfg : Config) (s : State)
    (session : atproto.Session) (b : string) :
  let name := authFileName env cfg in
  let client := adopt (bare_client cfg) session in
  fs s !! name = None ->
  os_Create_fault env name = None ->
  file_Write_fault env name = None ->
  ServerCreateSession_rpc (remote env) (bare_client cfg) (Handle cfg) (Password cfg)
    = Ok session ->
  json_Marshal (xrpc.Auth client) = Ok b ->
  (newClient env cfg s).1 = Return (Ok client) /\
  xrpc.Host client = Host cfg /\
  xrpc.Handle (xrpc.Auth client) = Handle cfg /\
  xrpc.Did (xrpc.Auth client) = atproto.Did session /\
  xrpc.AccessJwt (xrpc.Auth client) = atproto.AccessJwt session /\
  xrpc.RefreshJwt (xrpc.Auth client) = atproto.RefreshJwt session /\
  calls (newClient env cfg s).2 =
    (calls s ++ [ServerCreateSession_call (Handle cfg) (Password cfg)])%list /\
  fs (newClient env cfg s).2 = <[name := b]> (fs s).
Proof.
  intros name client Hnone Hcreate Hwrite Hrpc Hjson.
  rewrite (newClient_no_cache_run env cfg s Hnone). fold name.
  rewrite Hcreate, Hrpc. fold client. rewrite Hjson, Hwrite.
  repeat split.
Qed.

Lemma newClient_first_run_witness :
  (newClient Scenario.env_accepting Scenario.cfg Scenario.fresh).1
    = Return (Ok Scenario.client) /\
  calls (newClient Scenario.env_accepting Scenario.cfg Scenario.fresh).2
    = [ServerCreateSession_call "alice.bsky.social" "app-password"].
Proof.
  pose proof (newClient_first_run Scenario.env_accepting Scenario.cfg Scenario.fresh
                Scenario.created _ eq_refl eq_refl eq_refl eq_refl eq_refl)
    as (Hres & _ & _ & _ & _ & _ & Hcalls & _).
  split; [exact Hres|exact Hcalls].
Defined.

(** X2. The only way to a client. Whenever [newClient] returns a client,
    no cache file existed before the call, the identity service answered
    the one create-session call with the session whose tokens the client
    carries, and the cache file now holds the marshalled credentials. *)
Theorem newClient_success_inv `{codec : JSON} (env : Env) (cfg : Config) (s : State)
    (client : xrpc.Client) :
  (newClient env cfg s).1 = Return (Ok client) ->
  fs s !! authFileName env cfg = None /\
  exists session b,
    ServerCreateSession_rpc (remote env) (bare_client cfg) (Handle cfg) (Password cfg)
      = Ok session /\
    client = adopt (bare_client cfg) session /\
    json_Marshal (xrpc.Auth client) = Ok b /\
    fs (newClient env cfg s).2 = <[authFileName env cfg := b]> (fs s) /\
    calls (newClient env cfg s).2 =
      (calls s ++ [ServerCreateSession_call (Handle cfg) (Password cfg)])%list.
Proof.
  destruct (fs s !! authFileName env cfg) as [old|] eqn:Hfile.
  - rewrite (newClient_cache_present_run env cfg s (ex_intro _ old Hfile)).
    destruct (os_Create_fault _ _); [|destruct (io_ReadAll_fault _ _)]; cbn; discriminate.
  - rewrite (newClient_no_cache_run env cfg s Hfile).
    destruct (os_Create_fault _ _); [cbn; discriminate|].
    destruct (ServerCreateSession_rpc _ _ _ _) as [session|err]; [|cbn; discriminate].
    destruct (json_Marshal _) as [b|err] eqn:Hjson; [|cbn; discriminate].
    destruct (file_Write_fault _ _); [cbn; discriminate|].
    cbn. intros [= <-]. split; [reflexivity|].
    exists session, b. repeat split. exact Hjson.
Qed.

Lemma newClient_success_inv_witness :
  fs Scenario.fresh !! authFileName Scenario.env_accepting Scenario.cfg = None /\
  exists session b,
    ServerCreateSession_rpc (remote Scenario.env_accepting) (bare_client Scenario.cfg)
      (Handle Scenario.cfg) (Password Scenario.cfg) = Ok session /\
    Scenario.client = adopt (bare_client Scenario.cfg) session /\
    json_Marshal (xrpc.Auth Scenario.client) = Ok b /\
    fs (newClient Scenario.env_accepting Scenario.cfg Scenario.fresh).2
      = <[authFileName Scenario.env_accepting Scenario.cfg := b]> (fs Scenario.fresh) /\
    calls (newClient Scenario.env_accepting Scenario.cfg Scenario.fresh).2 =
      (calls Scenario.fresh
         ++ [ServerCreateSession_call (Handle Scenario.cfg) (Password Scenario.cfg)])%list.
Proof.
  exact (newClient_success_inv Scenario.env_accepting Scenario.cfg Scenario.fresh
           Scenario.client eq_refl).
Defined.

(** X3. No refresh, no second attempt. Whatever the environment and the
    files, [newClient] issues either no remote call at all or exactly one
    create-session call with the handle and password of the
    configuration; it never issues a refresh call. *)
Theorem newClient_calls `{codec : JSON} (env : Env) (cfg : Config) (s : State) :
  calls (newClient env cfg s).2 = calls s \/
  calls (newClient env cfg s).2 =
    (calls s ++ [ServerCreateSession_call (Handle cfg) (Password cfg)])%list.
Proof.
  destruct (fs s !! authFileName env cfg) as [old|] eqn:Hfile.
  - rewrite (newClient_cache_present_run env cfg s (ex_intro _ old Hfile)).
    destruct (os_Create_fault _ _); [|destruct (io_ReadAll_fault _ _)]; now left.
  - rewrite (newClient_no_cache_run env cfg s Hfile).
    destruct (os_Create_fault _ _); [now left|].
    destruct (ServerCreateSession_rpc _ _ _ _); [|now right].
    destruct (json_Marshal _); [|now right].
    destruct (file_Write_fault _ _); now right.
Qed.

(** Once [os.Create] has succeeded the cache file exists, whatever
    happens afterwards. *)
Lemma newClient_leaves_file `{codec : JSON} (env : Env) (cfg : Config) (s : State) :
  os_Create_fault env (authFileName env cfg) = None ->
  is_Some (fs (newClient env cfg s).2 !! authFileName env cfg).
Proof.
  intros Hcreate.
  destruct (fs s !! authFileName env cfg) as [old|] eqn:Hfile.
  - rewrite (newClient_cache_present_run env cfg s (ex_intro _ old Hfile)), Hcreate.
    destruct (io_ReadAll_fault _ _); cbn; rewrite lookup_insert_eq; eauto.
  - rewrite (newClient_no_cache_run env cfg s Hfile), Hcreate.
    destruct (ServerCreateSession_rpc _ _ _ _); [|cbn; rewrite lookup_insert_eq; eauto].
    destruct (json_Marshal _); [|cbn; rewrite lookup_insert_eq; eauto].
    destruct (file_Write_fault _ _); cbn; rewrite lookup_insert_eq; eauto.
Qed.

(** X4. One start per cache file. After any run of [newClient] in which
    [os.Create] succeeded, successful or not, a later startup with the
    same cache file name returns an error and issues no remote call,
    whatever the remote services would answer: the program starts again
    only after the file has been removed. *)
Theorem newClient_restart_fails `{codec : JSON} (env env' : Env) (cfg : Config) (s : State) :
  os_Create_fault env (authFileName env cfg) = None ->
  authFileName env' cfg = authFileName env cfg ->
  let first := newClient env cfg s in
  let second := newClient env' cfg first.2 in
  (exists e, second.1 = Return (Err e)) /\ calls second.2 = calls first.2.
Proof.
  intros Hcreate Hname first second.
  pose proof (newClient_leaves_file env cfg s Hcreate) as Hfile.
  rewrite <- Hname in Hfile. fold first in Hfile.
  unfold second. rewrite (newClient_cache_present_run env' cfg first.2 Hfile).
  destruct (os_Create_fault env' _); [|destruct (io_ReadAll_fault env' _)]; cbn; eauto.
Qed.

Lemma newClient_restart_fails_witness :
  (newClient Scenario.env_accepting Scenario.cfg Scenario.fresh).1
    = Return (Ok Scenario.client) /\
  exists e,
    (newClient Scenario.env_accepting Scenario.cfg
       (newClient Scenario.env_accepting Scenario.cfg Scenario.fresh).2).1
      = Return (Err e).
Proof.
  split; [reflexivity|].
  exact (proj1 (newClient_restart_fails Scenario.env_accepting Scenario.env_accepting
                  Scenario.cfg Scenario.fresh eq_refl eq_refl)).
Defined.

(** X5. A rejected first run. When no cache file exists and the identity
    service rejects handle and password, [newClient] returns that error
    wrapped twice as "failed to create session" (once by [createSession],
    once by [newClient]), and the cache file, created before the
    authentication, is left behind empty. *)
Theorem newClient_first_run_rejected `{codec : JSON} (env : Env) (cfg : Config) (s : State)
    (err : error) :
  let name := authFileName env cfg in
  fs s !! name = None ->
  os_Create_fault env name = None ->
  ServerCreateSession_rpc (remote env) (bare_client cfg) (Handle cfg) (Password cfg)
    = Err err ->
  (newClient env cfg s).1 =
    Return (Err (xerrors_Errorf "failed to create session"
                   (xerrors_Errorf "failed to create session" err))) /\
  fs (newClient env cfg s).2 = <[name := ""]> (fs s) /\
  calls (newClient env cfg s).2 =
    (calls s ++ [ServerCreateSession_call (Handle cfg) (Password cfg)])%list.
Proof.
  intros name Hnone Hcreate Hrpc.
  rewrite (newClient_no_cache_run env cfg s Hnone). fold name.
  rewrite Hcreate, Hrpc. repeat split.
Qed.

Lemma newClient_first_run_rejected_witness :
  (newClient (Scenario.env_of Scenario.remote_down) Scenario.cfg Scenario.fresh).1 =
    Return (Err (xerrors_Errorf "failed to create session"
                   (xerrors_Errorf "failed to create session"
                      (errors_New "connection refused")))) /\
  fs (newClient (Scenario.env_of Scenario.remote_down) Scenario.cfg Scenario.fresh).2
    !! Scenario.cache_name = Some "".
Proof.
  pose proof (newClient_first_run_rejected (Scenario.env_of Scenario.remote_down)
                Scenario.cfg Scenario.fresh (errors_New "connection refused")
                eq_refl eq_refl eq_refl) as (Hres & Hfs & _).
  split; [exact Hres|]. rewrite Hfs. reflexivity.
Defined.

Lemma append_assoc (a b c : string) : (a +:+ b) +:+ c = a +:+ (b +:+ c).
Proof.
  induction a as [|x a IH]; [reflexivity|].
  change (String x ((a +:+ b) +:+ c) = String x (a +:+ (b +:+ c))). now f_equal.
Qed.

(** X6. The cache key is the digest of the host, an underscore and the
    handle joined into one string, so two configurations whose host and
    handle join into the same string share one cache file, although they
    are different accounts on different hosts; the password plays no
    part in the key. *)
Theorem authFileName_collision (env : Env) (h x y p p' : string) :
  authFileName env {| Host := h +:+ "_" +:+ x; Handle := y; Password := p |} =
  authFileName env {| Host := h; Handle := x +:+ "_" +:+ y; Password := p' |}.
Proof.
  unfold authFileName. cbn [Host Handle].
  now rewrite !append_assoc.
Qed.

(** * Further properties of the ticks *)

(** X7. [fetchData] issues exactly one profile read, for the client's own
    handle, and touches nothing else: files, log and baseline are what
    they were, whether it returns a snapshot, returns an error or
    panics. *)
Theorem fetchData_frame (r : Remote) (client : xrpc.Client) (s : State) :
  calls (fetchData r client s).2 =
    (calls s ++ [ActorGetProfile_call (xrpc.Handle (xrpc.Auth client))])%list /\
  fs (fetchData r client s).2 = fs s /\
  log (fetchData r client s).2 = log s /\
  data (fetchData r client s).2 = data s.
Proof.
  rewrite fetchData_run. repeat split.
Qed.

(** Every run of the job, by the answers of the remote. *)
Lemma job_run (tmpl : Template) (client : xrpc.Client) (env : TickEnv) (s : State) :
  let actor := xrpc.Handle (xrpc.Auth client) in
  let s1 := add_call (ActorGetProfile_call actor) s in
  job tmpl client env s =
    match ActorGetProfile_rpc (tick_remote env) client actor with
    | Err err =>
        (Return tt,
         add_log (log_Printf "failed to update data"
                    (xerrors_Errorf "failed to get profile" err)) s1)
    | Ok profile =>
        match bsky.PostsCount profile, bsky.FollowsCount profile,
              bsky.FollowersCount profile with
        | Some a, Some b, Some c =>
            match tmpl (newParam (now_param env) (data s) (mkData a b c)) with
            | Err err => (Return tt, add_log (log_Printf "failed to execute template" err) s1)
            | Ok text =>
                let input := post_input client (now_post env) text in
                let s2 := add_call (RepoCreateRecord_call input) s1 in
                match RepoCreateRecord_rpc (tick_remote env) client input with
                | Err err => (Return tt, add_log (log_Printf "failed to post" err) s2)
                | Ok _ => (Return tt, add_log (log_Println "post success") s2)
                end
            end
        | _, _, _ => (Panic "runtime error: invalid memory address or nil pointer dereference", s1)
        end
    end.
Proof.
  cbv zeta. unfold job, bind. rewrite fetchData_run.
  destruct (ActorGetProfile_rpc _ _ _) as [[[a|] [b|] [c|]]|err]; try reflexivity.
  cbn -[newParam post]. destruct (tmpl _) as [text|err]; [|reflexivity].
  rewrite post_run. cbv zeta. fold (post_input client (now_post env) text).
  destruct (RepoCreateRecord_rpc _ _ _); reflexivity.
Qed.

(** X8. No re-authentication at a tick. The job issues one profile read
    and after it at most one create-record call, for the collection
    app.bsky.feed.post in the repository of the client's did, with the
    text the template produced; it never calls the identity service and
    never touches a file. *)
Theorem job_calls (tmpl : Template) (client : xrpc.Client) (env : TickEnv) (s : State) :
  fs (job tmpl client env s).2 = fs s /\
  (calls (job tmpl client env s).2 =
     (calls s ++ [ActorGetProfile_call (xrpc.Handle (xrpc.Auth client))])%list \/
   exists newData text,
     (fetchData (tick_remote env) client s).1 = Return (Ok newData) /\
     tmpl (newParam (now_param env) (data s) newData) = Ok text /\
     calls (job tmpl client env s).2 =
       (calls s ++ [ActorGetProfile_call (xrpc.Handle (xrpc.Auth client));
                    RepoCreateRecord_call (post_input client (now_post env) text)])%list).
Proof.
  split; [apply job_preserves_fs|].
  rewrite job_run, fetchData_run. cbv zeta.
  destruct (ActorGetProfile_rpc _ _ _) as [[[a|] [b|] [c|]]|err];
    cbn [bsky.PostsCount bsky.FollowsCount bsky.FollowersCount]; try (now left).
  destruct (tmpl (newParam (now_param env) (data s) (mkData a b c)))
    as [text|err] eqn:Htmpl; [|now left].
  right. exists (mkData a b c), text. split; [reflexivity|]. split; [exact Htmpl|].
  destruct (RepoCreateRecord_rpc _ _ _); cbn; now rewrite <- app_assoc.
Qed.

(** X9. The one way a tick ends the process. The job never exits the
    process, and it panics exactly when the profile read succeeds with a
    profile that lacks a counter; it then has logged nothing and
    published nothing. *)
Theorem job_panics_iff (tmpl : Template) (client : xrpc.Client) (env : TickEnv) (s : State) :
  (forall code, (job tmpl client env s).1 <> Exit code) /\
  ((exists msg, (job tmpl client env s).1 = Panic msg) <->
   (exists profile,
      ActorGetProfile_rpc (tick_remote env) client (xrpc.Handle (xrpc.Auth client))
        = Ok profile /\ counter_absent profile)) /\
  ((exists msg, (job tmpl client env s).1 = Panic msg) ->
   log (job tmpl client env s).2 = log s /\
   calls (job tmpl client env s).2 =
     (calls s ++ [ActorGetProfile_call (xrpc.Handle (xrpc.Auth client))])%list).
Proof.
  rewrite job_run. cbv zeta.
  destruct (ActorGetProfile_rpc _ _ _) as [profile|err] eqn:Hrpc.
  - destruct profile as [[a|] [b|] [c|]];
      cbn [bsky.PostsCount bsky.FollowsCount bsky.FollowersCount].
    1: { assert (Hret : forall st : outcome unit * State,
                   (exists e, st = (Return tt, e)) ->
                   (forall code, st.1 <> Exit code) /\
                   ((exists msg, st.1 = Panic msg) <->
                    (exists profile,
                       Ok (bsky.mkProfile (Some a) (Some b) (Some c)) = Ok profile /\
                       counter_absent profile)) /\
                   ((exists msg, st.1 = Panic msg) ->
                    log st.2 = log s /\
                    calls st.2 =
                      (calls s ++ [ActorGetProfile_call (xrpc.Handle (xrpc.Auth client))])%list)).
         { intros st [e ->]. cbn [fst snd]. split; [discriminate|]. split; [split|].
           - intros [msg [=]].
           - intros (profile & [= <-] & [H|[H|H]]); discriminate H.
           - intros [msg [=]]. }
         apply Hret.
         destruct (tmpl _) as [text|err]; [destruct (RepoCreateRecord_rpc _ _ _)|]; eauto. }
    all: cbn [fst snd]; split; [discriminate|]; split; [split|].
    all: try (intros _; split; reflexivity).
    all: try (intros _; eexists; reflexivity).
    all: intros _; eexists; split; [reflexivity|]; unfold counter_absent; cbn; auto.
  - cbn [fst snd]. split; [discriminate|]. split; [split|].
    + intros [msg [=]].
    + intros (profile & [=] & _).
    + intros [msg [=]].
Qed.

Lemma job_panics_iff_witness :
  (exists msg, (job POST_FORMAT Scenario.client Scenario.day_missing Scenario.running).1
               = Panic msg) /\
  log (job POST_FORMAT Scenario.client Scenario.day_missing Scenario.running).2
    = [log_Println "Starting..."].
Proof.
  destruct (job_panics_iff POST_FORMAT Scenario.client Scenario.day_missing Scenario.running)
    as (_ & Hiff & Hquiet).
  assert (Hpanic : exists msg,
             (job POST_FORMAT Scenario.client Scenario.day_missing Scenario.running).1
             = Panic msg).
  { apply Hiff. eexists. split; [reflexivity|]. left. reflexivity. }
  split; [exact Hpanic|]. exact (proj1 (Hquiet Hpanic)).
Defined.

(** X10. One line per tick. A tick that returns has appended exactly one
    line to the log, and that line is "post success" exactly when the
    tick issued a create-record call and the remote accepted it. *)
Theorem job_logs_one_line (tmpl : Template) (client : xrpc.Client) (env : TickEnv) (s : State) :
  (job tmpl client env s).1 = Return tt ->
  exists line,
    log (job tmpl client env s).2 = (log s ++ [line])%list /\
    (line = log_Println "post success" <->
     exists input out,
       last (calls (job tmpl client env s).2) = Some (RepoCreateRecord_call input) /\
       RepoCreateRecord_rpc (tick_remote env) client input = Ok out).
Proof.
  rewrite job_run. cbv zeta.
  destruct (ActorGetProfile_rpc _ _ _) as [[[a|] [b|] [c|]]|err]; cbn; try discriminate.
  - destruct (tmpl _) as [text|err]; [destruct (RepoCreateRecord_rpc _ _ _) as [out|err] eqn:Hrpc|];
      cbn; intros _; eexists; (split; [reflexivity|]).
    + split; [intros _|reflexivity].
      exists (post_input client (now_post env) text), out.
      split; [|exact Hrpc]. now rewrite last_snoc.
    + split; [discriminate|]. intros (input & out & Hlast & Hok).
      rewrite last_snoc in Hlast. injection Hlast as <-. congruence.
    + split; [discriminate|]. intros (input & out & Hlast & _).
      rewrite last_snoc in Hlast. discriminate Hlast.
  - intros _. eexists. split; [reflexivity|].
    split; [discriminate|]. intros (input & out & Hlast & _).
    rewrite last_snoc in Hlast. discriminate Hlast.
Qed.

Lemma job_logs_one_line_witness :
  log (job POST_FORMAT Scenario.client Scenario.day_1 Scenario.running).2
    = [log_Println "Starting..."; log_Println "post success"] /\
  exists line,
    log (job POST_FORMAT Scenario.client Scenario.day_down Scenario.running).2
      = (log Scenario.running ++ [line])%list.
Proof.
  split; [reflexivity|].
  destruct (job_logs_one_line POST_FORMAT Scenario.client Scenario.day_down
              Scenario.running eq_refl) as (line & Hlog & _).
  exists line. exact Hlog.
Defined.

(** A tick whose profile carries its counters returns and logs one line. *)
Lemma job_returns (tmpl : Template) (client : xrpc.Client) (env : TickEnv) (s : State) :
  counters_present client env ->
  (job tmpl client env s).1 = Return tt /\
  List.length (log (job tmpl client env s).2) = S (List.length (log s)).
Proof.
  intros Hpresent. rewrite job_run. cbv zeta.
  destruct (ActorGetProfile_rpc _ _ _) as [profile|err] eqn:Hrpc.
  - specialize (Hpresent profile Hrpc). unfold counter_absent in Hpresent.
    destruct profile as [[a|] [b|] [c|]];
      cbn [bsky.PostsCount bsky.FollowsCount bsky.FollowersCount] in *;
      try (exfalso; apply Hpresent; auto; fail).
    destruct (tmpl _) as [text|err]; [destruct (RepoCreateRecord_rpc _ _ _)|];
      cbn; rewrite length_app; cbn; split; (reflexivity || lia).
  - cbn. rewrite length_app. cbn. split; (reflexivity || lia).
Qed.

Lemma StartBlocking_returns_log (tmpl : Template) (client : xrpc.Client)
    (ticks : list TickEnv) (s : State) :
  Forall (counters_present client) ticks ->
  (StartBlocking (job tmpl client) ticks s).1 = Return tt /\
  List.length (log (StartBlocking (job tmpl client) ticks s).2)
    = (List.length (log s) + List.length ticks)%nat.
Proof.
  revert s. induction ticks as [|env ticks IH]; intros s Hall.
  - cbn. split; [reflexivity|lia].
  - apply Forall_cons in Hall as [Henv Hall].
    destruct (job_returns tmpl client env s Henv) as [Hret Hlog].
    cbn [StartBlocking]. unfold bind.
    destruct (job tmpl client env s) as [o s1]. cbn [fst snd] in Hret, Hlog. subst o.
    destruct (IH s1 Hall) as [IHret IHlog].
    split; [exact IHret|]. rewrite IHlog, Hlog. cbn [List.length]. lia.
Qed.

Lemma StartBlocking_preserves_fs (tmpl : Template) (client : xrpc.Client)
    (ticks : list TickEnv) (s : State) :
  fs (StartBlocking (job tmpl client) ticks s).2 = fs s.
Proof.
  revert s. induction ticks as [|env ticks IH]; intros s; [reflexivity|].
  cbn [StartBlocking]. unfold bind.
  pose proof (job_preserves_fs tmpl client env s) as Hjob.
  destruct (job tmpl client env s) as [[[]|msg|code] s1]; cbn [snd] in *;
    [rewrite IH|..]; exact Hjob.
Qed.

Lemma job_log_extends (tmpl : Template) (client : xrpc.Client) (env : TickEnv) (s : State) :
  counters_present client env ->
  exists line, log (job tmpl client env s).2 = (log s ++ [line])%list.
Proof.
  intros Hpresent. rewrite job_run. cbv zeta.
  destruct (ActorGetProfile_rpc _ _ _) as [profile|err] eqn:Hrpc.
  - specialize (Hpresent profile Hrpc). unfold counter_absent in Hpresent.
    destruct profile as [[a|] [b|] [c|]];
      cbn [bsky.PostsCount bsky.FollowsCount bsky.FollowersCount] in *;
      try (exfalso; apply Hpresent; auto; fail).
    destruct (tmpl _) as [text|err]; [destruct (RepoCreateRecord_rpc _ _ _)|];
      cbn; eauto.
  - cbn. eauto.
Qed.

(** The log after a schedule is the log before it followed by one line
    per tick. *)
Lemma StartBlocking_log_extends (tmpl : Template) (client : xrpc.Client)
    (ticks : list TickEnv) (s : State) :
  Forall (counters_present client) ticks ->
  exists lines,
    log (StartBlocking (job tmpl client) ticks s).2 = (log s ++ lines)%list /\
    List.length lines = List.length ticks.
Proof.
  revert s. induction ticks as [|env ticks IH]; intros s Hall.
  - exists []. cbn. now rewrite app_nil_r.
  - apply Forall_cons in Hall as [Henv Hall].
    destruct (job_returns tmpl client env s Henv) as [Hret _].
    destruct (job_log_extends tmpl client env s Henv) as [line Hline].
    cbn [StartBlocking]. unfold bind.
    destruct (job tmpl client env s) as [o s1]. cbn [fst snd] in Hret, Hline. subst o.
    destruct (IH s1 Hall) as (lines & Hlog & Hlen).
    exists (line :: lines). split; [|cbn; now rewrite Hlen].
    rewrite Hlog, Hline. now rewrite <- app_assoc.
Qed.

(** The schedule only adds calls after those already issued. *)
Lemma StartBlocking_calls_extend (tmpl : Template) (client : xrpc.Client)
    (ticks : list TickEnv) (s : State) :
  exists later, calls (StartBlocking (job tmpl client) ticks s).2 = (calls s ++ later)%list.
Proof.
  revert s. induction ticks as [|env ticks IH]; intros s.
  - exists []. cbn. now rewrite app_nil_r.
  - cbn [StartBlocking]. unfold bind.
    assert (Hjob : exists new, calls (job tmpl client env s).2 = (calls s ++ new)%list).
    { rewrite job_run. cbv zeta.
      destruct (ActorGetProfile_rpc _ _ _) as [[[a|] [b|] [c|]]|err];
        cbn [bsky.PostsCount bsky.FollowsCount bsky.FollowersCount];
        try (cbn; eauto; fail).
      destruct (tmpl _) as [text|err]; [destruct (RepoCreateRecord_rpc _ _ _)|];
        cbn; rewrite <- ?app_assoc; eauto. }
    destruct Hjob as [new Hnew].
    destruct (job tmpl client env s) as [[[]|msg|code] s1]; cbn [snd] in *; eauto.
    destruct (IH s1) as [later Hlater].
    exists (new ++ later)%list. now rewrite Hlater, Hnew, <- app_assoc.
Qed.

(** X11. Errors never stop the schedule. Over any sequence of ticks at
    which every profile the remote returns carries its three counters,
    whatever else fails (profile reads, template executions,
    publications), the scheduler runs every tick and returns: exactly one
    line is logged per tick, no file is touched and the baseline is the
    one the schedule started with. *)
Theorem StartBlocking_survives_errors (tmpl : Template) (client : xrpc.Client)
    (ticks : list TickEnv) (s : State) :
  Forall (counters_present client) ticks ->
  (StartBlocking (job tmpl client) ticks s).1 = Return tt /\
  List.length (log (StartBlocking (job tmpl client) ticks s).2)
    = (List.length (log s) + List.length ticks)%nat /\
  fs (StartBlocking (job tmpl client) ticks s).2 = fs s /\
  data (StartBlocking (job tmpl client) ticks s).2 = data s.
Proof.
  intros Hall. destruct (StartBlocking_returns_log tmpl client ticks s Hall) as [Hret Hlog].
  split; [exact Hret|]. split; [exact Hlog|]. split.
  - apply StartBlocking_preserves_fs.
  - apply StartBlocking_preserves_data.
Qed.

Lemma counters_present_day_1 : counters_present Scenario.client Scenario.day_1.
Proof. intros profile [= <-] [H|[H|H]]; discriminate H. Qed.

Lemma counters_present_day_down : counters_present Scenario.client Scenario.day_down.
Proof. intros profile [=]. Qed.

Lemma counters_present_day_unpublished :
  counters_present Scenario.client Scenario.day_unpublished.
Proof. intros profile [= <-] [H|[H|H]]; discriminate H. Qed.

Lemma StartBlocking_survives_errors_witness :
  (StartBlocking (job POST_FORMAT Scenario.client)
     [Scenario.day_down; Scenario.day_unpublished; Scenario.day_1] Scenario.running).1
    = Return tt /\
  List.length (log (StartBlocking (job POST_FORMAT Scenario.client)
     [Scenario.day_down; Scenario.day_unpublished; Scenario.day_1] Scenario.running).2)
    = 4%nat.
Proof.
  destruct (StartBlocking_survives_errors POST_FORMAT Scenario.client
              [Scenario.day_down; Scenario.day_unpublished; Scenario.day_1]
              Scenario.running
              (Forall_cons_2 _ _ _ counters_present_day_down
                 (Forall_cons_2 _ _ _ counters_present_day_unpublished
                    (Forall_cons_2 _ _ _ counters_present_day_1 (Forall_nil_2 _)))))
    as (Hret & Hlog & _).
  split; [exact Hret|exact Hlog].
Defined.

(** * Further properties of [main] *)

(** X12. A startup that finds the cache file ends the process. When the
    configuration loads and its cache file exists, [main] exits with
    status 1 after one [log.Fatalf] line "failed to create client",
    before any remote call and before any tick. *)
Theorem main_cache_present_exits `{codec : JSON} (env : Env) (ticks : list TickEnv)
    (cfg : Config) (s : State) :
  loadConfig env = Ok cfg ->
  is_Some (fs s !! authFileName env cfg) ->
  (main env ticks s).1 = Exit 1 /\
  calls (main env ticks s).2 = calls s /\
  exists e, log (main env ticks s).2
            = (log s ++ [log_Fatalf "failed to create client" e])%list.
Proof.
  intros Hcfg Hfile. unfold main, template_Parse. rewrite Hcfg. unfold bind.
  rewrite (newClient_cache_present_run env cfg s Hfile).
  destruct (os_Create_fault _ _); [|destruct (io_ReadAll_fault _ _)];
    cbn; repeat split; eauto.
Qed.

Lemma main_cache_present_exits_witness :
  (main Scenario.env_accepting [Scenario.day_1] Scenario.with_cache).1 = Exit 1 /\
  calls (main Scenario.env_accepting [Scenario.day_1] Scenario.with_cache).2 = [].
Proof.
  destruct (main_cache_present_exits Scenario.env_accepting [Scenario.day_1]
              Scenario.cfg Scenario.with_cache eq_refl
              (ex_intro _ Scenario.cache_content eq_refl)) as (Hexit & Hcalls & _).
  split; [exact Hexit|exact Hcalls].
Defined.

(** X13. A first run, end to end. When the configuration loads, no cache
    file exists, the file operations succeed, the identity service accepts
    handle and password, the credentials marshal and the startup profile
    carries its counters, [main] persists the credentials, takes the
    startup snapshot as baseline, logs "Starting..." and runs the
    schedule; over ticks whose profiles carry their counters it returns
    with one more log line per tick and the baseline still the startup
    snapshot. *)
Theorem main_first_run `{codec : JSON} (env : Env) (ticks : list TickEnv) (cfg : Config)
    (s : State) (session : atproto.Session) (b : string) (posts follows followers : Z) :
  let name := authFileName env cfg in
  let client := adopt (bare_client cfg) session in
  loadConfig env = Ok cfg ->
  fs s !! name = None ->
  os_Create_fault env name = None ->
  file_Write_fault env name = None ->
  ServerCreateSession_rpc (remote env) (bare_client cfg) (Handle cfg) (Password cfg)
    = Ok session ->
  json_Marshal (xrpc.Auth client) = Ok b ->
  ActorGetProfile_rpc (remote env) client (Handle cfg)
    = Ok (bsky.mkProfile (Some posts) (Some follows) (Some followers)) ->
  Forall (counters_present client) ticks ->
  (main env ticks s).1 = Return tt /\
  data (main env ticks s).2 = mkData posts follows followers /\
  fs (main env ticks s).2 = <[name := b]> (fs s) /\
  (exists lines,
     log (main env ticks s).2 = (log s ++ log_Println "Starting..." :: lines)%list /\
     List.length lines = List.length ticks) /\
  (exists later,
     calls (main env ticks s).2 =
       (calls s ++ ServerCreateSession_call (Handle cfg) (Password cfg)
                :: ActorGetProfile_call (Handle cfg) :: later)%list).
Proof.
  intros name client Hcfg Hnone Hcreate Hwrite Hrpc Hjson Hprofile Hticks.
  set (st := add_log (log_Println "Starting...")
               (set_data (mkData posts follows followers)
                  (add_call (ActorGetProfile_call (Handle cfg))
                     (set_offset (String.length b)
                        (set_fs (<[name := b]> (fs s))
                           (add_call (ServerCreateSession_call (Handle cfg) (Password cfg))
                              (set_offset 0 (set_fs (<[name := ""]> (fs s)) s)))))))).
  assert (Hmain : main env ticks s = StartBlocking (job POST_FORMAT client) ticks st).
  { unfold main, template_Parse. rewrite Hcfg. unfold bind.
    rewrite (newClient_no_cache_run env cfg s Hnone). fold name.
    rewrite Hcreate, Hrpc. fold client. rewrite Hjson, Hwrite.
    cbv beta iota zeta. rewrite fetchData_run. cbv zeta.
    change (xrpc.Handle (xrpc.Auth client)) with (Handle cfg). rewrite Hprofile.
    reflexivity. }
  rewrite Hmain.
  destruct (StartBlocking_returns_log POST_FORMAT client ticks st Hticks) as [Hret _].
  destruct (StartBlocking_log_extends POST_FORMAT client ticks st Hticks)
    as (lines & Hlog & Hlen).
  destruct (StartBlocking_calls_extend POST_FORMAT client ticks st) as (later & Hcalls).
  split; [exact Hret|]. split; [|split; [|split]].
  - now rewrite StartBlocking_preserves_data.
  - now rewrite StartBlocking_preserves_fs.
  - exists lines. split; [|exact Hlen]. rewrite Hlog. unfold st.
    cbn [log calls add_log set_data add_call set_offset set_fs].
    now rewrite <- app_assoc.
  - exists later. rewrite Hcalls. unfold st.
    cbn [log calls add_log set_data add_call set_offset set_fs].
    now rewrite <- !app_assoc.
Qed.

Lemma main_first_run_witness :
  (main Scenario.env_accepting [Scenario.day_1] Scenario.fresh).1 = Return tt /\
  data (main Scenario.env_accepting [Scenario.day_1] Scenario.fresh).2 = mkData 100 10 50 /\
  exists lines,
    log (main Scenario.env_accepting [Scenario.day_1] Scenario.fresh).2
      = (log Scenario.fresh ++ log_Println "Starting..." :: lines)%list /\
    List.length lines = 1%nat.
Proof.
  destruct (@main_first_run flat_json Scenario.env_accepting [Scenario.day_1] Scenario.cfg
              Scenario.fresh Scenario.created Scenario.saved_content 100 10 50
              eq_refl eq_refl eq_refl eq_refl eq_refl eq_refl eq_refl
              (Forall_cons_2 _ _ _ counters_present_day_1 (Forall_nil_2 _)))
    as (Hret & Hdata & _ & Hlog & _).
  split; [exact Hret|]. split; [exact Hdata|exact Hlog].
Defined.

(** * Further properties of the rendering *)

Lemma formatDiff_cases (d : Z) :
  (d = 0%Z /\ formatDiff d = "±0") \/
  ((0 < d)%Z /\ formatDiff d = String "+" (fmt_d d)) \/
  ((d < 0)%Z /\ formatDiff d = String "-" (fmt_d (- d))).
Proof.
  unfold formatDiff.
  destruct (Z.eqb_spec d 0) as [->|Hnz]; [now left|].
  destruct (Z.gtb_spec d 0) as [Hpos|Hneg].
  - right. left. split; [lia|reflexivity].
  - right. right. split; [lia|]. apply fmt_d_neg. lia.
Qed.

Lemma fmt_d_inj (a b : Z) : fmt_d a = fmt_d b -> a = b.
Proof.
  intros Heq. pose proof (fmt_d_reads_back a) as Ha.
  rewrite Heq, fmt_d_reads_back in Ha. now injection Ha.
Qed.

(** X14. The rendering of a diff is unambiguous: two integers that
    [formatDiff] renders alike are equal, so the sign string in a message
    determines the diff it was made from. *)
Theorem formatDiff_inj (d1 d2 : Z) : formatDiff d1 = formatDiff d2 -> d1 = d2.
Proof.
  destruct (formatDiff_cases d1) as [[H1 ->]|[[H1 ->]|[H1 ->]]];
    destruct (formatDiff_cases d2) as [[H2 ->]|[[H2 ->]|[H2 ->]]];
    intros Heq; try discriminate Heq.
  - congruence.
  - injection Heq as Heq. now apply fmt_d_inj.
  - injection Heq as Heq. apply fmt_d_inj in Heq. lia.
Qed.

Lemma formatDiff_inj_witness : sub64 105 100 = 5%Z.
Proof. exact (formatDiff_inj (sub64 105 100) 5 eq_refl). Defined.

Lemma sub64_zero_iff (a b : Z) : is_int64 a -> is_int64 b -> sub64 a b = 0%Z <-> a = b.
Proof.
  unfold is_int64, int64_min, int64_max, sub64, wrap64. intros Ha Hb.
  split; [|intros ->; now rewrite Z.sub_diag].
  change (2 ^ 63)%Z with 9223372036854775808%Z in *.
  change (2 ^ 64)%Z with 18446744073709551616%Z in *.
  intros H0.
  pose proof (Z.div_mod (a - b + 9223372036854775808) 18446744073709551616 ltac:(lia)) as Hdm.
  lia.
Qed.

(** X15. What the sign in a message says. For int64 counters, the diff of
    a counter is rendered [±0] exactly when the fetched value equals the
    baseline value, wrap-around included. For counters that are counts
    (non-negative) it is rendered with a plus sign and the increase when
    the counter grew, and with a minus sign and the decrease when it
    shrank. *)
Theorem rendered_diff_sign (old new : Z) :
  (is_int64 old -> is_int64 new -> (formatDiff (sub64 new old) = "±0" <-> new = old)) /\
  ((0 <= old <= int64_max)%Z -> (0 <= new <= int64_max)%Z ->
   ((old < new)%Z -> formatDiff (sub64 new old) = "+" +:+ fmt_d (new - old)) /\
   ((new < old)%Z -> formatDiff (sub64 new old) = "-" +:+ fmt_d (old - new))).
Proof.
  split.
  - intros Hold Hnew. rewrite <- (sub64_zero_iff new old Hnew Hold).
    destruct (formatDiff_cases (sub64 new old)) as [[H ->]|[[H ->]|[H ->]]].
    + tauto.
    + split; [discriminate|lia].
    + split; [discriminate|lia].
  - intros Hold Hnew. rewrite (sub64_counts new old Hnew Hold).
    destruct (formatDiff_cases (new - old)) as [[H ->]|[[H ->]|[H ->]]];
      split; intros Hlt; try lia; try reflexivity.
    now replace (- (new - old))%Z with (old - new)%Z by lia.
Qed.

Lemma rendered_diff_sign_witness :
  formatDiff (sub64 105 100) = "+5" /\ formatDiff (sub64 48 50) = "-2" /\
  (formatDiff (sub64 10 10) = "±0" <-> (10 : Z) = 10%Z).
Proof.
  pose proof (rendered_diff_sign 100 105) as (_ & Hup).
  pose proof (rendered_diff_sign 50 48) as (_ & Hdown).
  pose proof (rendered_diff_sign 10 10) as (Hsame & _).
  unfold is_int64, int64_min, int64_max in *.
  split; [|split].
  - rewrite (proj1 (Hup ltac:(lia) ltac:(lia)) ltac:(lia)). reflexivity.
  - rewrite (proj2 (Hdown ltac:(lia) ltac:(lia)) ltac:(lia)). reflexivity.
  - exact (Hsame ltac:(lia) ltac:(lia)).
Defined.

(** * The form of the timestamp *)

(** The date of a day between 0000-03-01 and the year 9600. *)
Lemma civil_bounds (days : Z) :
  (0 <= days + 719468 < 24 * 146097)%Z ->
  (0 <= (time.civil days).1.1 <= 9600)%Z /\
  (1 <= (time.civil days).1.2 <= 12)%Z /\
  (1 <= (time.civil days).2 <= 31)%Z.
Proof.
  intros H. unfold time.civil. cbv zeta. cbn [fst snd].
  set (z := (days + 719468)%Z) in *.
  set (era := (z / 146097)%Z).
  set (doe := (z - era * 146097)%Z).
  assert (Hera : (0 <= era <= 23)%Z)
    by (unfold era; Z.to_euclidean_division_equations; lia).
  assert (Hdoe : (0 <= doe <= 146096)%Z)
    by (unfold doe, era; Z.to_euclidean_division_equations; lia).
  set (yoe := ((doe - doe / 1460 + doe / 36524 - doe / 146096) / 365)%Z).
  assert (Hyoe : (0 <= yoe <= 399)%Z)
    by (unfold yoe; Z.to_euclidean_division_equations; lia).
  set (doy := (doe - (365 * yoe + yoe / 4 - yoe / 100))%Z).
  assert (Hdoy : (0 <= doy <= 365)%Z)
    by (unfold doy, yoe; Z.to_euclidean_division_equations; lia).
  set (mp := ((5 * doy + 2) / 153)%Z).
  assert (Hmp : (0 <= mp <= 11)%Z)
    by (unfold mp; Z.to_euclidean_division_equations; lia).
  assert (Hd : (1 <= doy - (153 * mp + 2) / 5 + 1 <= 31)%Z)
    by (unfold mp; Z.to_euclidean_division_equations; lia).
  destruct (Z.ltb_spec mp 10); destruct (Z.leb_spec (mp + 3) 2);
    destruct (Z.leb_spec (mp - 9) 2); lia.
Qed.

(** A property checked on every number below [n] holds below [n]. *)
Lemma checked_below (P : Z -> bool) (n : Z) :
  List.forallb (fun k => P (Z.of_nat k)) (List.seq 0 (Z.to_nat n)) = true ->
  forall z, (0 <= z < n)%Z -> P z = true.
Proof.
  intros Hall z Hz. rewrite List.forallb_forall in Hall.
  specialize (Hall (Z.to_nat z)). rewrite Z2Nat.id in Hall by lia.
  apply Hall, List.in_seq. lia.
Qed.

Lemma appendInt_2_digits (z : Z) :
  (0 <= z < 100)%Z -> digit_string 2 (appendInt 2 z) = true.
Proof.
  apply (checked_below (fun z => digit_string 2 (appendInt 2 z)) 100).
  vm_compute. reflexivity.
Qed.

Lemma appendInt_4_digits (z : Z) :
  (0 <= z < 10000)%Z -> digit_string 4 (appendInt 4 z) = true.
Proof.
  apply (checked_below (fun z => digit_string 4 (appendInt 4 z)) 10000).
  vm_compute. reflexivity.
Qed.

Lemma pad_nat_3_digits (z : Z) :
  (0 <= z < 1000)%Z -> digit_string 3 (pad_nat 3 (z * 10 ^ Z.of_nat 3 / 1000)) = true.
Proof.
  apply (checked_below (fun z => digit_string 3 (pad_nat 3 (z * 10 ^ Z.of_nat 3 / 1000))) 1000).
  vm_compute. reflexivity.
Qed.

Lemma digit_string_length (n : nat) (s : string) :
  digit_string n s = true -> String.length s = n.
Proof.
  revert s. induction n as [|n IH]; intros [|c s]; cbn; try discriminate; [reflexivity|].
  intros [_ H]%andb_prop. now rewrite (IH s H).
Qed.

Lemma string_length_append (a b : string) :
  String.length (a +:+ b) = (String.length a + String.length b)%nat.
Proof.
  induction a as [|c a IH]; [reflexivity|].
  change (S (String.length (a +:+ b)) = S (String.length a + String.length b)).
  now rewrite IH.
Qed.

(** X16. The form of [createdAt]. For every reading of the clock whose
    wall time lies between 1970 and the year 9575, the timestamp of the
    record that [post] builds is four digits, a dash, two digits, a dash,
    two digits, the letter T, two digits, a colon, two digits, a colon,
    two digits, a dot, three digits and the letter Z: 24 bytes, with the
    month between 1 and 12, the day between 1 and 31, the hour below 24
    and minute and second below 60. *)
Theorem post_createdAt_form (client : xrpc.Client) (now : time.Time) (text : string) :
  (0 <= time.wallMilli now < 240000000000000)%Z ->
  let stamp := atproto.CreatedAt (atproto.Record_ (post_input client now text)) in
  stamp = appendInt 4 (time.Year now) +:+ "-" +:+ appendInt 2 (time.Month now) +:+ "-"
          +:+ appendInt 2 (time.Day now) +:+ "T" +:+ appendInt 2 (time.Hour now) +:+ ":"
          +:+ appendInt 2 (time.Minute now) +:+ ":" +:+ appendInt 2 (time.Second now)
          +:+ ("." +:+ pad_nat 3 (time.Millisecond now * 10 ^ Z.of_nat 3 / 1000))
          +:+ "Z" +:+ "" /\
  String.length stamp = 24%nat /\
  digit_string 4 (appendInt 4 (time.Year now)) = true /\
  digit_string 2 (appendInt 2 (time.Month now)) = true /\
  digit_string 2 (appendInt 2 (time.Day now)) = true /\
  digit_string 2 (appendInt 2 (time.Hour now)) = true /\
  digit_string 2 (appendInt 2 (time.Minute now)) = true /\
  digit_string 2 (appendInt 2 (time.Second now)) = true /\
  digit_string 3 (pad_nat 3 (time.Millisecond now * 10 ^ Z.of_nat 3 / 1000)) = true /\
  (1 <= time.Month now <= 12)%Z /\ (1 <= time.Day now <= 31)%Z /\
  (0 <= time.Hour now < 24)%Z /\ (0 <= time.Minute now < 60)%Z /\
  (0 <= time.Second now < 60)%Z.
Proof.
  intros Hrange stamp.
  assert (Hdays : (0 <= time.wallMilli now / 86400000 + 719468 < 24 * 146097)%Z)
    by (Z.to_euclidean_division_equations; lia).
  destruct (civil_bounds _ Hdays) as (Hy & Hm & Hd).
  fold (time.Year now) in Hy. fold (time.Month now) in Hm. fold (time.Day now) in Hd.
  assert (Hh : (0 <= time.Hour now < 24)%Z)
    by (unfold time.Hour; Z.to_euclidean_division_equations; lia).
  assert (Hmi : (0 <= time.Minute now < 60)%Z)
    by (unfold time.Minute; Z.to_euclidean_division_equations; lia).
  assert (Hs : (0 <= time.Second now < 60)%Z)
    by (unfold time.Second; Z.to_euclidean_division_equations; lia).
  assert (Hms : (0 <= time.Millisecond now < 1000)%Z)
    by (unfold time.Millisecond; Z.to_euclidean_division_equations; lia).
  pose proof (appendInt_4_digits (time.Year now) ltac:(lia)) as Dy.
  pose proof (appendInt_2_digits (time.Month now) ltac:(lia)) as Dm.
  pose proof (appendInt_2_digits (time.Day now) ltac:(lia)) as Dd.
  pose proof (appendInt_2_digits (time.Hour now) ltac:(lia)) as Dh.
  pose proof (appendInt_2_digits (time.Minute now) ltac:(lia)) as Dmi.
  pose proof (appendInt_2_digits (time.Second now) ltac:(lia)) as Ds.
  pose proof (pad_nat_3_digits (time.Millisecond now) Hms) as Dms.
  assert (Hstamp : stamp = appendInt 4 (time.Year now) +:+ "-" +:+ appendInt 2 (time.Month now)
          +:+ "-" +:+ appendInt 2 (time.Day now) +:+ "T" +:+ appendInt 2 (time.Hour now)
          +:+ ":" +:+ appendInt 2 (time.Minute now) +:+ ":" +:+ appendInt 2 (time.Second now)
          +:+ ("." +:+ pad_nat 3 (time.Millisecond now * 10 ^ Z.of_nat 3 / 1000))
          +:+ "Z" +:+ "") by reflexivity.
  split; [exact Hstamp|]. split; [|tauto].
  rewrite Hstamp. rewrite !string_length_append.
  rewrite (digit_string_length _ _ Dy), (digit_string_length _ _ Dm),
    (digit_string_length _ _ Dd), (digit_string_length _ _ Dh),
    (digit_string_length _ _ Dmi), (digit_string_length _ _ Ds),
    (digit_string_length _ _ Dms).
  reflexivity.
Qed.

Lemma post_createdAt_form_witness :
  String.length (atproto.CreatedAt
                   (atproto.Record_ (post_input Scenario.client Scenario.midnight_1 "text")))
    = 24%nat.
Proof.
  pose proof (post_createdAt_form Scenario.client Scenario.midnight_1 "text") as H.
  cbv zeta in H. apply H. vm_compute. split; [discriminate|reflexivity].
Defined.

(** * The failures of a tick *)

(** The execution of the program's own template returns no error, so at
    run time a failed tick is a failed fetch or a failed publication. *)
Lemma POST_FORMAT_succeeds (p : Param) : exists text, POST_FORMAT p = Ok text.
Proof. unfold POST_FORMAT. eauto. Qed.

(** A panic of the job ends the schedule: the ticks after it do not run. *)
Lemma StartBlocking_stops_at_panic (j : TickEnv -> M unit) (env : TickEnv)
    (rest : list TickEnv) (s : State) (msg : string) :
  (j env s).1 = Panic msg ->
  StartBlocking j (env :: rest) s = j env s.
Proof.
  intros Hpanic. cbn [StartBlocking]. unfold bind.
  destruct (j env s) as [o s1]. cbn [fst] in Hpanic. now subst o.
Qed.

(** C8 as stated fails at a tick whose profile comes back without its
    posts counter, a failure of the fetch: the job does not return and
    logs nothing, and the process ends there; the tick of the next day,
    which would have succeeded, never runs. *)
Lemma absent_counter_tick_ends_process :
  (job POST_FORMAT Scenario.client Scenario.day_missing Scenario.running).1
    = Panic "runtime error: invalid memory address or nil pointer dereference" /\
  log (job POST_FORMAT Scenario.client Scenario.day_missing Scenario.running).2
    = log Scenario.running /\
  ~ ((job POST_FORMAT Scenario.client Scenario.day_missing Scenario.running).1 = Return tt /\
     exists line,
       log (job POST_FORMAT Scenario.client Scenario.day_missing Scenario.running).2
         = (log Scenario.running ++ [line])%list) /\
  (StartBlocking (job POST_FORMAT Scenario.client) [Scenario.day_missing; Scenario.day_1]
     Scenario.running).1
    = Panic "runtime error: invalid memory address or nil pointer dereference" /\
  calls (StartBlocking (job POST_FORMAT Scenario.client)
           [Scenario.day_missing; Scenario.day_1] Scenario.running).2
    = [ActorGetProfile_call "alice.bsky.social"] /\
  (job POST_FORMAT Scenario.client Scenario.day_1 Scenario.running).1 = Return tt.
Proof.
  repeat split; try (vm_compute; reflexivity).
  intros [Hret _]. vm_compute in Hret. discriminate Hret.
Qed.

(** C8, amended. Every tick is of one of three kinds. (1) A step returns
    an error (the fetch, the template execution or the publication): the
    job logs the error with [log.Printf] and returns, neither panicking
    nor exiting the process, and the baseline [data] is what it was, so
    the parameters of the next tick are computed against the same
    baseline. (2) The profile is read but lacks a counter: this failure is
    not caught; the job panics, logs nothing, leaves the baseline as it
    was, and the schedule ends with it, no later tick being run. (3) The
    tick succeeds and logs "post success". With the program's own
    template the execution of the template never fails, so there a tick
    of the first kind is a failed fetch or a failed publication. *)
Theorem tick_failure_outcomes (tmpl : Template) (client : xrpc.Client) (env : TickEnv)
    (s : State) :
  (forall line, tick_fails tmpl client env s line ->
     (job tmpl client env s).1 = Return tt /\
     log (job tmpl client env s).2 = (log s ++ [line])%list /\
     (exists msg err, line = log_Printf msg err) /\
     data (job tmpl client env s).2 = data s /\
     (forall now newData,
        newParam now (data (job tmpl client env s).2) newData
          = newParam now (data s) newData)) /\
  (forall profile,
     ActorGetProfile_rpc (tick_remote env) client (xrpc.Handle (xrpc.Auth client))
       = Ok profile ->
     counter_absent profile ->
     (job tmpl client env s).1
       = Panic "runtime error: invalid memory address or nil pointer dereference" /\
     log (job tmpl client env s).2 = log s /\
     data (job tmpl client env s).2 = data s /\
     (forall rest,
        StartBlocking (job tmpl client) (env :: rest) s = job tmpl client env s)) /\
  ((exists line, tick_fails tmpl client env s line) \/
   (exists profile,
      ActorGetProfile_rpc (tick_remote env) client (xrpc.Handle (xrpc.Auth client))
        = Ok profile /\ counter_absent profile) \/
   ((job tmpl client env s).1 = Return tt /\
    log (job tmpl client env s).2 = (log s ++ [log_Println "post success"])%list)) /\
  (tmpl = POST_FORMAT ->
   forall line, tick_fails tmpl client env s line ->
     exists err, line = log_Printf "failed to update data" err \/
                 line = log_Printf "failed to post" err).
Proof.
  split; [|split; [|split]]; cycle 3.
  { intros -> line Hfail.
    inversion Hfail as [err Hf|newData err Hf Ht|newData text err Hf Ht Hp]; subst line.
    - eauto.
    - discriminate Ht.
    - eauto. }
  - intros line Hfail. now apply job_error_logged_baseline_kept.
  - intros profile Hrpc Habsent.
    assert (Hpanic : (job tmpl client env s).1
              = Panic "runtime error: invalid memory address or nil pointer dereference" /\
            log (job tmpl client env s).2 = log s).
    { rewrite job_run. cbv zeta. rewrite Hrpc. unfold counter_absent in Habsent.
      destruct profile as [[a|] [b|] [c|]];
        cbn [bsky.PostsCount bsky.FollowsCount bsky.FollowersCount] in *;
        try (split; reflexivity).
      destruct Habsent as [H|[H|H]]; discriminate H. }
    destruct Hpanic as [Hpanic Hlog].
    split; [exact Hpanic|]. split; [exact Hlog|]. split; [apply job_preserves_data|].
    intros rest. exact (StartBlocking_stops_at_panic _ env rest s _ Hpanic).
  - pose proof (fetchData_run (tick_remote env) client s) as Hfetch. cbv zeta in Hfetch.
    pose proof (job_run tmpl client env s) as Hjob. cbv zeta in Hjob.
    destruct (ActorGetProfile_rpc (tick_remote env) client (xrpc.Handle (xrpc.Auth client)))
      as [profile|err] eqn:Hrpc.
    + destruct profile as [[a|] [b|] [c|]];
        cbn [bsky.PostsCount bsky.FollowsCount bsky.FollowersCount] in *;
        try (right; left; eexists; split; [reflexivity|];
             unfold counter_absent; cbn; auto; fail).
      assert (Hf : (fetchData (tick_remote env) client s).1 = Return (Ok (mkData a b c)))
        by now rewrite Hfetch.
      destruct (tmpl (newParam (now_param env) (data s) (mkData a b c)))
        as [text|err] eqn:Htmpl.
      * destruct (RepoCreateRecord_rpc (tick_remote env) client
                    (post_input client (now_post env) text)) as [out|err] eqn:Hpost.
        -- right. right. rewrite Hjob. split; reflexivity.
        -- left. eexists.
           apply (publish_error tmpl client env s (mkData a b c) text err Hf Htmpl).
           rewrite Hfetch. cbn [snd]. rewrite post_run. cbv zeta. cbn [fst].
           fold (post_input client (now_post env) text). now rewrite Hpost.
      * left. eexists. exact (render_error tmpl client env s (mkData a b c) err Hf Htmpl).
    + left. eexists. apply fetch_error. now rewrite Hfetch.
Qed.

Lemma tick_failure_outcomes_witness :
  ((job POST_FORMAT Scenario.client Scenario.day_down Scenario.running).1 = Return tt /\
   data (job POST_FORMAT Scenario.client Scenario.day_down Scenario.running).2
     = mkData 100 10 50) /\
  ((job POST_FORMAT Scenario.client Scenario.day_unpublished Scenario.running).1
     = Return tt /\
   log (job POST_FORMAT Scenario.client Scenario.day_unpublished Scenario.running).2
     = [log_Println "Starting..."; log_Printf "failed to post" (errors_New "connection refused")]) /\
  ((job Scenario.failing_template Scenario.client Scenario.day_1 Scenario.running).1
     = Return tt) /\
  ((job POST_FORMAT Scenario.client Scenario.day_missing Scenario.running).1
     = Panic "runtime error: invalid memory address or nil pointer dereference" /\
   StartBlocking (job POST_FORMAT Scenario.client) [Scenario.day_missing; Scenario.day_1]
     Scenario.running
     = job POST_FORMAT Scenario.client Scenario.day_missing Scenario.running).
Proof.
  destruct (tick_failure_outcomes POST_FORMAT Scenario.client Scenario.day_down
              Scenario.running) as (Hdown & _ & _).
  destruct (Hdown _ (fetch_error POST_FORMAT Scenario.client Scenario.day_down
                       Scenario.running
                       (xerrors_Errorf "failed to get profile" (errors_New "connection refused"))
                       eq_refl)) as (D1 & _ & _ & D2 & _).
  destruct (tick_failure_outcomes POST_FORMAT Scenario.client Scenario.day_unpublished
              Scenario.running) as (Hunpub & _ & _).
  destruct (Hunpub _ (publish_error POST_FORMAT Scenario.client Scenario.day_unpublished
                        Scenario.running (mkData 105 10 48) _
                        (errors_New "connection refused") eq_refl eq_refl eq_refl))
    as (U1 & U2 & _).
  destruct (tick_failure_outcomes Scenario.failing_template Scenario.client Scenario.day_1
              Scenario.running) as (Hrender & _ & _).
  destruct (Hrender _ (render_error Scenario.failing_template Scenario.client Scenario.day_1
                         Scenario.running (mkData 105 10 48)
                         (errors_New "template: post: execution failed") eq_refl eq_refl))
    as (R1 & _).
  destruct (tick_failure_outcomes POST_FORMAT Scenario.client Scenario.day_missing
              Scenario.running) as (_ & Hmissing & _).
  destruct (Hmissing _ eq_refl (or_introl eq_refl)) as (M1 & _ & _ & M2).
  split; [exact (conj D1 D2)|]. split; [exact (conj U1 U2)|]. split; [exact R1|].
  split; [exact M1|]. exact (M2 [Scenario.day_1]).
Defined.
